(** * Attribute-value association (saleor/attribute/utils.py)

    A shallow embedding of the five functions of [saleor/attribute/utils.py]
    over an explicit relational store, and the properties of
    [associate_attribute_values_to_instance] proved about it.

    The functions read and write database tables through the ORM.  The store
    below carries the tables they touch; every function is a computation in a
    state-and-exception monad over that store, so that rows written before an
    exception is raised stay written (the source opens no transaction). *)

From stdpp Require Import gmap strings list sorting.

Set Warnings "-clear-no-such-hyp".

Local Open Scope Z_scope.
Local Open Scope string_scope.
Local Open Scope list_scope.

(** ** Exceptions *)

(** The Python exceptions the functions can raise.  [AssertionError] carries
    its message: the source raises it at two places with different texts. *)
Inductive Exception :=
| AssertionError (msg : string)
| DoesNotExist
| MultipleObjectsReturned
| AttributeError
| KeyError (key : string)
| ValueError.

Global Instance Exception_eq_dec : EqDecision Exception.
Proof. solve_decision. Defined.

(** The names the specification gives to these failures. *)
Definition ValueOwnershipError : Exception :=
  AssertionError "Some values are not from the provided attribute.".
Definition UnsupportedEntityError (class_name : string) : Exception :=
  AssertionError (class_name +:+ " is unsupported").
Definition LinkNotFoundError : Exception := DoesNotExist.
Definition ValueNotInAssignmentError : Exception := ValueError.

(** ** Data model *)

(** The five model families; each has its own link table, assignment table
    ([AssignedProductAttribute], ...) and value-assignment table
    ([AssignedProductAttributeValue], ...). *)
Inductive Model := Product | ProductVariant | Page | Category | Collection.

Global Instance Model_eq_dec : EqDecision Model.
Proof. solve_decision. Defined.

(** Modelled from the spec: the model classes of [saleor/attribute/models.py]
    ([Attribute], [AttributeValue], the link, assignment and
    value-assignment models) are declared outside this module.  The records
    below carry the fields the functions read and write. *)

(** A row of [AttributeValue]. *)
Record AttributeValue := {
  av_pk : Z;
  av_attribute_id : Z;
}.

Record Attribute := {
  attr_pk : Z;
}.

(** A row of [AttributeProduct], [AttributeVariant], [AttributePage] or of
    the site settings' per-kind link collections: the attribute it links and
    the owner (product type, page type or site settings) it links it to. *)
Record AttributeLink := {
  link_pk : Z;
  link_attribute_id : Z;
  link_owner_id : Z;
}.

(** A row of an assignment table: entity instance and link. *)
Record AssignmentRow := {
  asg_pk : Z;
  asg_instance_id : Z;
  asg_assignment_id : Z;
}.

(** An assignment object as the functions pass it around: the row and the
    model class it is an instance of. *)
Record Assignment := {
  asg_model : Model;
  asg_row : AssignmentRow;
}.

(** A row of a value-assignment table (the through table of
    [assignment.values]).  [sort_order] is nullable. *)
Record AssignedValue := {
  asv_pk : Z;
  asv_assignment_id : Z;
  asv_value_id : Z;
  sort_order : option nat;
}.

Global Instance AttributeValue_eq_dec : EqDecision AttributeValue.
Proof. solve_decision. Defined.
Global Instance AttributeLink_eq_dec : EqDecision AttributeLink.
Proof. solve_decision. Defined.
Global Instance AssignmentRow_eq_dec : EqDecision AssignmentRow.
Proof. solve_decision. Defined.
Global Instance Assignment_eq_dec : EqDecision Assignment.
Proof. solve_decision. Defined.
Global Instance AssignedValue_eq_dec : EqDecision AssignedValue.
Proof. solve_decision. Defined.

(** The tables of one model family, with the two primary-key sequences. *)
Record Tables := {
  links : list AttributeLink;
  assignments : list AssignmentRow;
  value_assignments : list AssignedValue;
  next_assignment_pk : Z;
  next_value_assignment_pk : Z;
}.

Record Store := {
  attribute_values : list AttributeValue;
  product_tables : Tables;
  variant_tables : Tables;
  page_tables : Tables;
  category_tables : Tables;
  collection_tables : Tables;
}.

Definition tables (st : Store) (m : Model) : Tables :=
  match m with
  | Product => product_tables st
  | ProductVariant => variant_tables st
  | Page => page_tables st
  | Category => category_tables st
  | Collection => collection_tables st
  end.

Definition set_tables (st : Store) (m : Model) (t : Tables) : Store :=
  match m with
  | Product =>
      {| attribute_values := attribute_values st; product_tables := t;
         variant_tables := variant_tables st; page_tables := page_tables st;
         category_tables := category_tables st;
         collection_tables := collection_tables st |}
  | ProductVariant =>
      {| attribute_values := attribute_values st;
         product_tables := product_tables st; variant_tables := t;
         page_tables := page_tables st;
         category_tables := category_tables st;
         collection_tables := collection_tables st |}
  | Page =>
      {| attribute_values := attribute_values st;
         product_tables := product_tables st;
         variant_tables := variant_tables st; page_tables := t;
         category_tables := category_tables st;
         collection_tables := collection_tables st |}
  | Category =>
      {| attribute_values := attribute_values st;
         product_tables := product_tables st;
         variant_tables := variant_tables st; page_tables := page_tables st;
         category_tables := t;
         collection_tables := collection_tables st |}
  | Collection =>
      {| attribute_values := attribute_values st;
         product_tables := product_tables st;
         variant_tables := variant_tables st; page_tables := page_tables st;
         category_tables := category_tables st;
         collection_tables := t |}
  end.

(** The entity instances: the five supported classes with the fields the
    functions read, and any other object with its class name.
    A product carries [instance.product_type], a variant
    [instance.product.product_type], a page [instance.page_type].

    An [Instance] is an object whose class is one of the five models itself,
    or an object that is an instance of none of them.  An instance of a
    subclass of a model, which [isinstance] accepts under the model while
    [__class__.__name__] gives the name of the subclass, is not
    represented: the properties below say nothing about such objects. *)
Inductive Instance :=
| IProduct (pk product_type : Z)
| IProductVariant (pk product_type : Z)
| IPage (pk page_type : Z)
| ICategory (pk : Z)
| ICollection (pk : Z)
| IOther (class_name : string) (pk : Z).

(** [instance.__class__.__name__]: for the objects represented, the name
    of the model the [isinstance] tests select, or the name of the other
    class. *)
Definition class_name (instance : Instance) : string :=
  match instance with
  | IProduct _ _ => "Product"
  | IProductVariant _ _ => "ProductVariant"
  | IPage _ _ => "Page"
  | ICategory _ => "Category"
  | ICollection _ => "Collection"
  | IOther name _ => name
  end.

Definition instance_pk (instance : Instance) : Z :=
  match instance with
  | IProduct pk _ | IProductVariant pk _ | IPage pk _
  | ICategory pk | ICollection pk | IOther _ pk => pk
  end.

(** The site settings object: only its primary key matters, it selects the
    rows of [category_attributes] and [collection_attributes]. *)
Record SiteSettings := {
  site_pk : Z;
}.

(** ** The state-and-exception monad *)

Inductive Result (A : Type) :=
| Return (a : A)
| Raise (e : Exception).
Arguments Return {A} a.
Arguments Raise {A} e.

Definition M (A : Type) : Type := Store → Store * Result A.

Global Instance M_ret : MRet M := λ A a st, (st, Return a).
Global Instance M_bind : MBind M := λ A B f m st,
  match m st with
  | (st', Return a) => f a st'
  | (st', Raise e) => (st', Raise e)
  end.

Definition raise {A} (e : Exception) : M A := λ st, (st, Raise e).
Definition get_store : M Store := λ st, (st, Return st).
Definition put_store (st : Store) : M unit := λ _, (st, Return tt).
Definition lift {A} (r : Result A) : M A := λ st, (st, r).

Section Associator.

(** Two orders are left open by this module, and are parameters here.  The
    order in which a queryset over a value-assignment table yields its rows
    comes from the models' [Meta.ordering], declared outside this module.
    The order in which the identifiers of a Python [set] are iterated, and
    so the order in which [add] inserts new rows, is that of the
    interpreter.  The properties below assume of them only that the first
    rearranges the rows and the second enumerates the set. *)
Context (queryset_order : list AssignedValue → list AssignedValue).
Context (set_order : gset Z → list Z).

(** ** The ORM operations the functions call *)

(** The querysets and managers are Django's.  Each operation is written as
    the effect it has on the tables of the store. *)

(** [QuerySet.get] on the rows a filter selected: exactly one row, or
    [DoesNotExist], or [MultipleObjectsReturned]. *)
Definition queryset_get {A} (rows : list A) : Result A :=
  match rows with
  | [] => Raise DoesNotExist
  | [row] => Return row
  | _ => Raise MultipleObjectsReturned
  end.

(** A reverse manager of link rows, such as
    [instance.product_type.attributeproduct] or
    [site_settings.category_attributes]: the link table of a model family
    restricted to one owner. *)
Record LinkManager := {
  lm_model : Model;
  lm_owner_id : Z;
}.

Definition link_rows (st : Store) (rel : LinkManager) (attribute_id : Z)
  : list AttributeLink :=
  filter (λ l, link_owner_id l = lm_owner_id rel
               ∧ link_attribute_id l = attribute_id)
         (links (tables st (lm_model rel))).

(** [rel.get(attribute_id=attribute_pk)] *)
Definition link_manager_get (rel : LinkManager) (attribute_id : Z)
  : M AttributeLink :=
  st ← get_store;
  lift (queryset_get (link_rows st rel attribute_id)).

Definition assignment_rows (t : Tables) (instance_id link_id : Z)
  : list AssignmentRow :=
  filter (λ a, asg_instance_id a = instance_id ∧ asg_assignment_id a = link_id)
         (assignments t).

Definition with_assignments (t : Tables) (rows : list AssignmentRow)
  (next : Z) : Tables :=
  {| links := links t; assignments := rows;
     value_assignments := value_assignments t;
     next_assignment_pk := next;
     next_value_assignment_pk := next_value_assignment_pk t |}.

Definition with_value_assignments (t : Tables) (rows : list AssignedValue)
  (next : Z) : Tables :=
  {| links := links t; assignments := assignments t;
     value_assignments := rows;
     next_assignment_pk := next_assignment_pk t;
     next_value_assignment_pk := next |}.

(** [model.objects.get_or_create(<entity>=instance, assignment=attribute_rel)]:
    the row with that pair if there is one, else a new row with the next
    primary key. *)
Definition get_or_create (model : Model) (instance_id : Z)
  (attribute_rel : AttributeLink) : M Assignment :=
  st ← get_store;
  let t := tables st model in
  match assignment_rows t instance_id (link_pk attribute_rel) with
  | [] =>
      let row := {| asg_pk := next_assignment_pk t;
                    asg_instance_id := instance_id;
                    asg_assignment_id := link_pk attribute_rel |} in
      put_store (set_tables st model
                   (with_assignments t (assignments t ++ [row])
                                     (next_assignment_pk t + 1)));;
      mret {| asg_model := model; asg_row := row |}
  | [row] => mret {| asg_model := model; asg_row := row |}
  | _ => raise MultipleObjectsReturned
  end.

(** The through rows of [assignment.values]. *)
Definition rows_of (assignment_id : Z) (rows : list AssignedValue)
  : list AssignedValue :=
  filter (λ r, asv_assignment_id r = assignment_id) rows.

(** The loop of [ManyRelatedManager.set]: a requested id already present is
    struck from [old_ids], any other object is queued for insertion. *)
Definition set_partition (old_ids : gset Z) (objs : list AttributeValue)
  : gset Z * list AttributeValue :=
  foldl (λ '(old_ids, new_objs) obj,
           if decide (av_pk obj ∈ old_ids)
           then (old_ids ∖ {[av_pk obj]}, new_objs)
           else (old_ids, new_objs ++ [obj]))
        (old_ids, []) objs.

(** [assignment.values.remove( *old_ids)]: delete the through rows of the
    assignment whose value is in [old_ids]. *)
Definition values_remove (assignment : Assignment) (old_ids : gset Z)
  : M unit :=
  st ← get_store;
  let t := tables st (asg_model assignment) in
  put_store (set_tables st (asg_model assignment)
    (with_value_assignments t
       (filter (λ r, ¬ (asv_assignment_id r = asg_pk (asg_row assignment)
                        ∧ asv_value_id r ∈ old_ids))
               (value_assignments t))
       (next_value_assignment_pk t))).

(** The rows [bulk_create] inserts: consecutive primary keys, no sort
    order. *)
Fixpoint new_rows (assignment_id : Z) (next : Z) (ids : list Z)
  : list AssignedValue :=
  match ids with
  | [] => []
  | id :: ids =>
      {| asv_pk := next; asv_assignment_id := assignment_id;
         asv_value_id := id; sort_order := None |}
      :: new_rows assignment_id (next + 1) ids
  end.

(** [assignment.values.add( *new_objs)]: one through row for each requested
    id the assignment does not have yet, inserted in the order in which the
    set of these ids is iterated. *)
Definition values_add (assignment : Assignment) (new_objs : list AttributeValue)
  : M unit :=
  st ← get_store;
  let t := tables st (asg_model assignment) in
  let target_ids : gset Z := list_to_set (av_pk <$> new_objs) in
  let vals : gset Z :=
    list_to_set (asv_value_id <$>
      filter (λ r, asv_value_id r ∈ target_ids)
             (rows_of (asg_pk (asg_row assignment)) (value_assignments t))) in
  let missing_target_ids := set_order (target_ids ∖ vals) in
  put_store (set_tables st (asg_model assignment)
    (with_value_assignments t
       (value_assignments t
        ++ new_rows (asg_pk (asg_row assignment))
                    (next_value_assignment_pk t) missing_target_ids)
       (next_value_assignment_pk t + Z.of_nat (length missing_target_ids)))).

(** [assignment.values.set(values)] *)
Definition values_set (assignment : Assignment) (objs : list AttributeValue)
  : M unit :=
  st ← get_store;
  let old_ids : gset Z :=
    list_to_set (asv_value_id <$>
      rows_of (asg_pk (asg_row assignment))
              (value_assignments (tables st (asg_model assignment)))) in
  let '(old_ids, new_objs) := set_partition old_ids objs in
  values_remove assignment old_ids;;
  values_add assignment new_objs.

(** [row.sort_order = o] *)
Definition with_sort_order (r : AssignedValue) (o : option nat)
  : AssignedValue :=
  {| asv_pk := asv_pk r; asv_assignment_id := asv_assignment_id r;
     asv_value_id := asv_value_id r; sort_order := o |}.

(** [model.objects.bulk_update(objs, ["sort_order"])]: every row whose
    primary key is that of an object takes the object's sort order. *)
Definition update_sort_order (objs : list AssignedValue) (r : AssignedValue)
  : AssignedValue :=
  match list_find (λ o, asv_pk o = asv_pk r) objs with
  | Some (_, o) => with_sort_order r (sort_order o)
  | None => r
  end.

Definition bulk_update (model : Model) (objs : list AssignedValue) : M unit :=
  st ← get_store;
  let t := tables st model in
  put_store (set_tables st model
    (with_value_assignments t
       (update_sort_order objs <$> value_assignments t)
       (next_value_assignment_pk t))).

(** ** Python list operations *)

(** [l.index(x)]: the first position of [x]; [None] stands for the
    [ValueError] Python raises when [x] is absent. *)
Fixpoint index (x : Z) (l : list Z) : option nat :=
  match l with
  | [] => None
  | y :: l => if decide (x = y) then Some 0%nat else S <$> index x l
  end.

(** [list.sort(key=...)] is stable: an element goes before the first
    element of the sorted tail whose key is not smaller. *)
Fixpoint insert_by_key {A} (k : nat) (x : A) (l : list (nat * A))
  : list (nat * A) :=
  match l with
  | [] => [(k, x)]
  | (k', y) :: l' =>
      if decide (k' < k)%nat then (k', y) :: insert_by_key k x l'
      else (k, x) :: l
  end.

Definition sort_keyed {A} (l : list (nat * A)) : list (nat * A) :=
  foldr (λ p acc, insert_by_key p.1 p.2 acc) [] l.

(** [values_assignment.sort(key=lambda e: values_pks.index(e.value.pk))]:
    the keys are computed first, and a failing key leaves no result. *)
Definition sort_by_index (values_pks : list Z) (rows : list AssignedValue)
  : option (list AssignedValue) :=
  keyed ← mapM (λ e, (λ i, (i, e)) <$> index (asv_value_id e) values_pks) rows;
  Some (snd <$> sort_keyed keyed).

(** The sort key of a row whose value is in [values_pks]. *)
Definition key_of (values_pks : list Z) (r : AssignedValue) : nat :=
  default 0%nat (index (asv_value_id r) values_pks).

(** [for index, value_assignment in enumerate(values_assignment):
       value_assignment.sort_order = index] *)
Definition enumerate_sort_order (rows : list AssignedValue)
  : list AssignedValue :=
  imap (λ i r, with_sort_order r (Some i)) rows.

(** ** The functions of [saleor/attribute/utils.py] *)

(** [set(attribute.values.values_list("pk", flat=True))] *)
Definition attribute_actual_value_ids (st : Store) (attribute : Attribute)
  : gset Z :=
  list_to_set (av_pk <$>
    filter (λ v, av_attribute_id v = attr_pk attribute) (attribute_values st)).

Definition validate_attribute_owns_values (attribute : Attribute)
  (value_ids : gset Z) : M unit :=
  st ← get_store;
  let found_associated_ids :=
    attribute_actual_value_ids st attribute ∩ value_ids in
  if decide (found_associated_ids ≠ value_ids)
  then raise (AssertionError
                "Some values are not from the provided attribute.")
  else mret tt.

(** The dictionary of [_get_associate_category_or_collection_attribute];
    [None] stands for [KeyError]. *)
Definition instance_to_assignment_mapping (model_name : string)
  : option (string * Model) :=
  if decide (model_name = "Category")
  then Some ("category_attributes", Category)
  else if decide (model_name = "Collection")
  then Some ("collection_attributes", Collection)
  else None.

(** [getattr(site_settings, assignment_lookup)]; [None] has no attribute. *)
Definition getattr_site_settings (site_settings : option SiteSettings)
  (name : string) : Result LinkManager :=
  match site_settings with
  | None => Raise AttributeError
  | Some settings =>
      if decide (name = "category_attributes")
      then Return {| lm_model := Category; lm_owner_id := site_pk settings |}
      else if decide (name = "collection_attributes")
      then Return {| lm_model := Collection; lm_owner_id := site_pk settings |}
      else Raise AttributeError
  end.

Definition _get_associate_category_or_collection_attribute
  (instance : Instance) (attribute_pk : Z)
  (site_settings : option SiteSettings) : M Assignment :=
  let model_name := class_name instance in
  match instance_to_assignment_mapping model_name with
  | None => raise (KeyError model_name)
  | Some (assignment_lookup, assignment_model) =>
      rel ← lift (getattr_site_settings site_settings assignment_lookup);
      attribute_rel ← link_manager_get rel attribute_pk;
      get_or_create assignment_model (instance_pk instance) attribute_rel
  end.

Definition _associate_attribute_to_instance (instance : Instance)
  (attribute_pk : Z) (site_settings : option SiteSettings) : M Assignment :=
  match instance with
  | IProduct pk product_type =>
      attribute_rel ←
        link_manager_get {| lm_model := Product; lm_owner_id := product_type |}
                         attribute_pk;
      get_or_create Product pk attribute_rel
  | IProductVariant pk product_type =>
      attribute_rel ←
        link_manager_get
          {| lm_model := ProductVariant; lm_owner_id := product_type |}
          attribute_pk;
      get_or_create ProductVariant pk attribute_rel
  | IPage pk page_type =>
      attribute_rel ←
        link_manager_get {| lm_model := Page; lm_owner_id := page_type |}
                         attribute_pk;
      get_or_create Page pk attribute_rel
  | ICategory _ | ICollection _ =>
      _get_associate_category_or_collection_attribute
        instance attribute_pk site_settings
  | IOther name _ => raise (AssertionError (name +:+ " is unsupported"))
  end.

(** The dictionary of [sort_assigned_attribute_values]. *)
Definition instance_to_value_assignment_mapping (model_name : string)
  : option (string * Model) :=
  if decide (model_name = "Product")
  then Some ("productvalueassignment", Product)
  else if decide (model_name = "ProductVariant")
  then Some ("variantvalueassignment", ProductVariant)
  else if decide (model_name = "Page")
  then Some ("pagevalueassignment", Page)
  else if decide (model_name = "Category")
  then Some ("categoryvalueassignment", Category)
  else if decide (model_name = "Collection")
  then Some ("collectionvalueassignment", Collection)
  else None.

(** The reverse accessor an assignment object of each class has. *)
Definition value_assignment_accessor (m : Model) : string :=
  match m with
  | Product => "productvalueassignment"
  | ProductVariant => "variantvalueassignment"
  | Page => "pagevalueassignment"
  | Category => "categoryvalueassignment"
  | Collection => "collectionvalueassignment"
  end.

(** [list(getattr(assignment, assignment_lookup).select_related("value"))] *)
Definition getattr_assignment (assignment : Assignment) (name : string)
  : M (list AssignedValue) :=
  if decide (name = value_assignment_accessor (asg_model assignment))
  then
    st ← get_store;
    mret (queryset_order
            (rows_of (asg_pk (asg_row assignment))
                     (value_assignments (tables st (asg_model assignment)))))
  else raise AttributeError.

Definition sort_assigned_attribute_values (instance : Instance)
  (assignment : Assignment) (values : list AttributeValue) : M unit :=
  match instance_to_value_assignment_mapping (class_name instance) with
  | None => raise (KeyError (class_name instance))
  | Some (assignment_lookup, assignment_model) =>
      let values_pks := av_pk <$> values in
      values_assignment ← getattr_assignment assignment assignment_lookup;
      match sort_by_index values_pks values_assignment with
      | None => raise ValueError
      | Some values_assignment =>
          bulk_update assignment_model
                      (enumerate_sort_order values_assignment)
      end
  end.

Definition associate_attribute_values_to_instance (instance : Instance)
  (attribute : Attribute) (values : list AttributeValue)
  (site_settings : option SiteSettings) : M Assignment :=
  let values_ids : gset Z := list_to_set (av_pk <$> values) in
  validate_attribute_owns_values attribute values_ids;;
  assignment ←
    _associate_attribute_to_instance instance (attr_pk attribute)
                                     site_settings;
  values_set assignment values;;
  sort_assigned_attribute_values instance assignment values;;
  mret assignment.

End Associator.

(** ** Well-formed stores *)

(** Modelled from the spec: the constraints of the schema, which the models
    declare outside this module.  In the tables of one model family primary
    keys are unique and below their sequence, there is one link per owner
    and attribute, at most one assignment per instance and link, and at
    most one value-assignment row per assignment and value. *)
Record wf_tables (t : Tables) : Prop := {
  wf_link_unique :
    NoDup ((λ l, (link_owner_id l, link_attribute_id l)) <$> links t);
  wf_assignment_unique :
    NoDup ((λ a, (asg_instance_id a, asg_assignment_id a)) <$> assignments t);
  wf_assignment_pk : NoDup (asg_pk <$> assignments t);
  wf_assignment_seq :
    ∀ a, a ∈ assignments t → asg_pk a < next_assignment_pk t;
  wf_value_unique :
    NoDup ((λ r, (asv_assignment_id r, asv_value_id r))
             <$> value_assignments t);
  wf_value_pk : NoDup (asv_pk <$> value_assignments t);
  wf_value_seq :
    ∀ r, r ∈ value_assignments t → asv_pk r < next_value_assignment_pk t;
}.

Definition wf_store (st : Store) : Prop := ∀ m, wf_tables (tables st m).

(** What the claims observe of a store. *)

(** The value identifiers associated with an assignment. *)
Definition assigned_value_ids (st : Store) (a : Assignment) : gset Z :=
  list_to_set (asv_value_id <$>
    rows_of (asg_pk (asg_row a)) (value_assignments (tables st (asg_model a)))).

(** The through rows of an assignment. *)
Definition assigned_rows (st : Store) (a : Assignment) : list AssignedValue :=
  rows_of (asg_pk (asg_row a)) (value_assignments (tables st (asg_model a))).

(** The model family of a supported instance. *)
Definition model_of (instance : Instance) : option Model :=
  match instance with
  | IProduct _ _ => Some Product
  | IProductVariant _ _ => Some ProductVariant
  | IPage _ _ => Some Page
  | ICategory _ => Some Category
  | ICollection _ => Some Collection
  | IOther _ _ => None
  end.

(** The two ways the functions look at the class of an instance agree:
    where the [isinstance] tests select a model, the dictionary of
    [sort_assigned_attribute_values] has an entry under
    [__class__.__name__], and it is the entry of that model.  This holds of
    an object whose class is one of the five models itself and of an object
    that is an instance of none of them, hence of every [Instance]; an
    instance of a subclass of a model would not satisfy it. *)
Definition exact_class (instance : Instance) : Prop :=
  match model_of instance with
  | Some m =>
      instance_to_value_assignment_mapping (class_name instance)
      = Some (value_assignment_accessor m, m)
  | None => True
  end.

(** The link collection [_associate_attribute_to_instance] consults for an
    instance: that of its type, or for a category or collection that of the
    site settings, when there are any. *)
Definition link_collection (instance : Instance)
  (site_settings : option SiteSettings) : option LinkManager :=
  match instance with
  | IProduct _ product_type =>
      Some {| lm_model := Product; lm_owner_id := product_type |}
  | IProductVariant _ product_type =>
      Some {| lm_model := ProductVariant; lm_owner_id := product_type |}
  | IPage _ page_type =>
      Some {| lm_model := Page; lm_owner_id := page_type |}
  | ICategory _ =>
      (λ s, {| lm_model := Category; lm_owner_id := site_pk s |})
        <$> site_settings
  | ICollection _ =>
      (λ s, {| lm_model := Collection; lm_owner_id := site_pk s |})
        <$> site_settings
  | IOther _ _ => None
  end.

(** The rows [assignment.values.set] leaves in the through table. *)
Definition missing_ids (pk : Z) (ids : gset Z) (rows : list AssignedValue)
  : gset Z :=
  ids ∖ list_to_set (asv_value_id <$> rows_of pk rows).

Definition set_rows (set_order : gset Z → list Z) (pk : Z) (ids : gset Z)
  (rows : list AssignedValue) (next : Z) : list AssignedValue :=
  filter (λ r, asv_assignment_id r = pk → asv_value_id r ∈ ids) rows
  ++ new_rows pk next (set_order (missing_ids pk ids rows)).

(** The through table after [set] and the sort that follows it, when the
    sort arranged the rows of the assignment as [sorted]. *)
Definition final_tables (set_order : gset Z → list Z)
  (sorted : list AssignedValue) (t : Tables) (pk : Z) (ids : gset Z)
  : Tables :=
  with_value_assignments t
    (update_sort_order (enumerate_sort_order sorted)
       <$> set_rows set_order pk ids (value_assignments t)
                    (next_value_assignment_pk t))
    (next_value_assignment_pk t
     + Z.of_nat (length (set_order
                           (missing_ids pk ids (value_assignments t))))).

(** The two ways [get_or_create] leaves the store: the assignment was
    there, or it is appended with the next primary key. *)
Definition assignment_step (st : Store) (a : Assignment) (st1 : Store)
  : Prop :=
  let t := tables st (asg_model a) in
  (st1 = st
   ∧ assignment_rows t (asg_instance_id (asg_row a))
                     (asg_assignment_id (asg_row a)) = [asg_row a])
  ∨ (st1 = set_tables st (asg_model a)
             (with_assignments t (assignments t ++ [asg_row a])
                               (next_assignment_pk t + 1))
     ∧ assignment_rows t (asg_instance_id (asg_row a))
                       (asg_assignment_id (asg_row a)) = []
     ∧ asg_pk (asg_row a) = next_assignment_pk t).

(** ** A small catalogue *)

(** The scenario of the specification: an attribute "Color" with the values
    Red (1), Blue (2) and Green (3), linked to product type 7, to page
    type 8 and to the categories of site settings 1; a second attribute
    "Size" with the value Large (4), linked to nothing. *)
Definition color : Attribute := {| attr_pk := 10 |}.
Definition size : Attribute := {| attr_pk := 11 |}.
Definition red : AttributeValue := {| av_pk := 1; av_attribute_id := 10 |}.
Definition blue : AttributeValue := {| av_pk := 2; av_attribute_id := 10 |}.
Definition green : AttributeValue := {| av_pk := 3; av_attribute_id := 10 |}.
Definition large : AttributeValue := {| av_pk := 4; av_attribute_id := 11 |}.

Definition empty_tables : Tables :=
  {| links := []; assignments := []; value_assignments := [];
     next_assignment_pk := 1; next_value_assignment_pk := 1 |}.

Definition linked_tables (link_id owner : Z) : Tables :=
  {| links := [ {| link_pk := link_id; link_attribute_id := 10;
                   link_owner_id := owner |} ];
     assignments := []; value_assignments := [];
     next_assignment_pk := 1; next_value_assignment_pk := 1 |}.

Definition catalogue : Store :=
  {| attribute_values := [red; blue; green; large];
     product_tables := linked_tables 100 7;
     variant_tables := empty_tables;
     page_tables := linked_tables 101 8;
     category_tables := linked_tables 102 1;
     collection_tables := empty_tables |}.

(** Identifiers in ascending order, one way of iterating a set. *)
Definition ascending (ids : gset Z) : list Z := merge_sort Z.le (elements ids).

Definition shirt : Instance := IProduct 5 7.
Definition settings : SiteSettings := {| site_pk := 1 |}.

(** The store after [associate(shirt, color, [green, red])]. *)
Definition catalogue_green_red : Store :=
  {| attribute_values := [red; blue; green; large];
     product_tables :=
       {| links := [ {| link_pk := 100; link_attribute_id := 10;
                        link_owner_id := 7 |} ];
          assignments := [ {| asg_pk := 1; asg_instance_id := 5;
                              asg_assignment_id := 100 |} ];
          value_assignments :=
            [ {| asv_pk := 1; asv_assignment_id := 1; asv_value_id := 1;
                 sort_order := Some 1%nat |};
              {| asv_pk := 2; asv_assignment_id := 1; asv_value_id := 3;
                 sort_order := Some 0%nat |} ];
          next_assignment_pk := 2; next_value_assignment_pk := 3 |};
     variant_tables := empty_tables;
     page_tables := linked_tables 101 8;
     category_tables := linked_tables 102 1;
     collection_tables := empty_tables |}.

Definition shirt_color : Assignment :=
  {| asg_model := Product;
     asg_row := {| asg_pk := 1; asg_instance_id := 5;
                   asg_assignment_id := 100 |} |}.

(** A shop with a second product of type 7, the hat (6), and a page (9)
    of type 8.  The shirt, the hat and the page each have a colour
    assignment; the page shows blue.  The through rows of the two products
    are given. *)
Definition shop_with (rows : list AssignedValue) (next : Z) : Store :=
  {| attribute_values := [red; blue; green; large];
     product_tables :=
       {| links := [ {| link_pk := 100; link_attribute_id := 10;
                        link_owner_id := 7 |} ];
          assignments := [ {| asg_pk := 1; asg_instance_id := 5;
                              asg_assignment_id := 100 |};
                           {| asg_pk := 2; asg_instance_id := 6;
                              asg_assignment_id := 100 |} ];
          value_assignments := rows;
          next_assignment_pk := 3; next_value_assignment_pk := next |};
     variant_tables := empty_tables;
     page_tables :=
       {| links := [ {| link_pk := 101; link_attribute_id := 10;
                        link_owner_id := 8 |} ];
          assignments := [ {| asg_pk := 1; asg_instance_id := 9;
                              asg_assignment_id := 101 |} ];
          value_assignments :=
            [ {| asv_pk := 1; asv_assignment_id := 1; asv_value_id := 2;
                 sort_order := Some 0%nat |} ];
          next_assignment_pk := 2; next_value_assignment_pk := 2 |};
     category_tables := linked_tables 102 1;
     collection_tables := empty_tables |}.

(** The hat shows green, then red. *)
Definition hat_rows : list AssignedValue :=
  [ {| asv_pk := 2; asv_assignment_id := 2; asv_value_id := 3;
       sort_order := Some 0%nat |};
    {| asv_pk := 3; asv_assignment_id := 2; asv_value_id := 1;
       sort_order := Some 1%nat |} ].

(** The shop while the shirt shows red. *)
Definition shop : Store :=
  shop_with ({| asv_pk := 1; asv_assignment_id := 1; asv_value_id := 1;
                sort_order := Some 0%nat |} :: hat_rows) 4.

(** The shop after [associate(shirt, color, [blue])]. *)
Definition shop_shirt_blue : Store :=
  shop_with (hat_rows ++ [ {| asv_pk := 4; asv_assignment_id := 1;
                              asv_value_id := 2;
                              sort_order := Some 0%nat |} ]) 5.

(** The shop after [associate(shirt, color, [])]. *)
Definition shop_shirt_bare : Store := shop_with hat_rows 4.

(** The catalogue once the shirt has its colour assignment, without
    values. *)
Definition catalogue_assigned : Store :=
  {| attribute_values := [red; blue; green; large];
     product_tables :=
       {| links := [ {| link_pk := 100; link_attribute_id := 10;
                        link_owner_id := 7 |} ];
          assignments := [ {| asg_pk := 1; asg_instance_id := 5;
                              asg_assignment_id := 100 |} ];
          value_assignments := [];
          next_assignment_pk := 2; next_value_assignment_pk := 1 |};
     variant_tables := empty_tables;
     page_tables := linked_tables 101 8;
     category_tables := linked_tables 102 1;
     collection_tables := empty_tables |}.

(** The catalogue with the shirt's colour assignment and the given through
    rows. *)
Definition shirt_catalogue (rows : list AssignedValue) (next : Z) : Store :=
  {| attribute_values := [red; blue; green; large];
     product_tables :=
       {| links := [ {| link_pk := 100; link_attribute_id := 10;
                        link_owner_id := 7 |} ];
          assignments := [ {| asg_pk := 1; asg_instance_id := 5;
                              asg_assignment_id := 100 |} ];
          value_assignments := rows;
          next_assignment_pk := 2; next_value_assignment_pk := next |};
     variant_tables := empty_tables;
     page_tables := linked_tables 101 8;
     category_tables := linked_tables 102 1;
     collection_tables := empty_tables |}.

(** Red first, then green. *)
Definition catalogue_red_green : Store :=
  shirt_catalogue
    [ {| asv_pk := 1; asv_assignment_id := 1; asv_value_id := 1;
         sort_order := Some 0%nat |};
      {| asv_pk := 2; asv_assignment_id := 1; asv_value_id := 3;
         sort_order := Some 1%nat |} ] 3.

(** Blue first, then green, after green and red. *)
Definition catalogue_blue_green : Store :=
  shirt_catalogue
    [ {| asv_pk := 2; asv_assignment_id := 1; asv_value_id := 3;
         sort_order := Some 1%nat |};
      {| asv_pk := 3; asv_assignment_id := 1; asv_value_id := 2;
         sort_order := Some 0%nat |} ] 4.

(** Settles the comparisons of class and attribute names. *)
Ltac eval_decide :=
  repeat first [ rewrite decide_True by done
               | rewrite decide_False by done ];
  cbn [fst snd].

(** * Properties *)

(** ** Stores *)

Lemma tables_set_tables st m t : tables (set_tables st m t) m = t.
Proof. by destruct m. Qed.

Lemma tables_set_tables_ne st m m' t :
  m ≠ m' → tables (set_tables st m t) m' = tables st m'.
Proof. by destruct m, m'. Qed.

Lemma attribute_values_set_tables st m t :
  attribute_values (set_tables st m t) = attribute_values st.
Proof. by destruct m. Qed.

Lemma set_tables_id st m : set_tables st m (tables st m) = st.
Proof. by destruct st, m. Qed.

Lemma set_tables_twice st m t t' :
  set_tables (set_tables st m t) m t' = set_tables st m t'.
Proof. by destruct m. Qed.

Lemma with_value_assignments_id t :
  with_value_assignments t (value_assignments t) (next_value_assignment_pk t)
  = t.
Proof. by destruct t. Qed.

(** ** The monad *)

Lemma bind_return {A B} (m : M A) (f : A → M B) st st' a :
  m st = (st', Return a) → (m ≫= f) st = f a st'.
Proof. intros H. unfold mbind, M_bind. by rewrite H. Qed.

Lemma bind_raise {A B} (m : M A) (f : A → M B) st st' e :
  m st = (st', Raise e) → (m ≫= f) st = (st', Raise e).
Proof. intros H. unfold mbind, M_bind. by rewrite H. Qed.

(** ** [ManyRelatedManager.set] *)

Lemma set_partition_spec objs (old_ids : gset Z) new_objs :
  let r := foldl (λ '(old_ids, new_objs) obj,
                    if decide (av_pk obj ∈ old_ids)
                    then (old_ids ∖ {[av_pk obj]}, new_objs)
                    else (old_ids, new_objs ++ [obj]))
                 (old_ids, new_objs) objs in
  let ids : gset Z := list_to_set (av_pk <$> objs) in
  let news : gset Z := list_to_set (av_pk <$> new_objs) in
  r.1 = old_ids ∖ ids
  ∧ list_to_set (av_pk <$> r.2) ⊆ news ∪ ids
  ∧ news ∪ (ids ∖ old_ids) ⊆ list_to_set (av_pk <$> r.2).
Proof.
  revert old_ids new_objs.
  induction objs as [|obj objs IH]; intros O N; cbn [foldl fmap list_fmap].
  - cbn [fst snd list_to_set]. set_solver.
  - rewrite list_to_set_cons.
    destruct (decide (av_pk obj ∈ O)) as [Hin|Hin].
    + destruct (IH (O ∖ {[av_pk obj]}) N) as (H1 & H2 & H3).
      revert H1 H2 H3. generalize (foldl
        (λ '(old_ids, new_objs) obj0,
           if decide (av_pk obj0 ∈ old_ids)
           then (old_ids ∖ {[av_pk obj0]}, new_objs)
           else (old_ids, new_objs ++ [obj0]))
        (O ∖ {[av_pk obj]}, N) objs).
      intros [O' N']. cbn [fst snd]. intros -> H2 H3.
      generalize dependent (list_to_set (C:=gset Z) (av_pk <$> N')).
      generalize (list_to_set (C:=gset Z) (av_pk <$> N)).
      generalize (list_to_set (C:=gset Z) (av_pk <$> objs)).
      intros ids news news' H2 H3. set_solver.
    + destruct (IH O (N ++ [obj])) as (H1 & H2 & H3).
      rewrite fmap_app, list_to_set_app_L in H2, H3.
      cbn [fmap list_fmap list_to_set] in H2, H3.
      revert H1 H2 H3. generalize (foldl
        (λ '(old_ids, new_objs) obj0,
           if decide (av_pk obj0 ∈ old_ids)
           then (old_ids ∖ {[av_pk obj0]}, new_objs)
           else (old_ids, new_objs ++ [obj0]))
        (O, N ++ [obj]) objs).
      intros [O' N']. cbn [fst snd]. intros -> H2 H3.
      generalize dependent (list_to_set (C:=gset Z) (av_pk <$> N')).
      generalize (list_to_set (C:=gset Z) (av_pk <$> N)).
      generalize (list_to_set (C:=gset Z) (av_pk <$> objs)).
      intros ids news news' H2 H3. set_solver.
Qed.

Lemma filter_ext_elem {A} (P1 P2 : A → Prop)
    `{!∀ x, Decision (P1 x), !∀ x, Decision (P2 x)} (l : list A) :
  (∀ x, x ∈ l → P1 x ↔ P2 x) → filter P1 l = filter P2 l.
Proof.
  induction l as [|a l IH]; intros HP; [done|].
  rewrite !filter_cons, IH by (intros x Hx; apply HP; by right).
  apply decide_ext, HP. by left.
Qed.

Lemma filter_all {A} (P : A → Prop) `{!∀ x, Decision (P x)} (l : list A) :
  (∀ x, x ∈ l → P x) → filter P l = l.
Proof.
  induction l as [|a l IH]; intros HP; [done|].
  rewrite filter_cons_True by (apply HP; by left).
  f_equal. apply IH. intros x Hx. apply HP. by right.
Qed.

Lemma filter_none {A} (P : A → Prop) `{!∀ x, Decision (P x)} (l : list A) :
  (∀ x, x ∈ l → ¬ P x) → filter P l = [].
Proof.
  induction l as [|a l IH]; intros HP; [done|].
  rewrite filter_cons_False by (apply HP; by left).
  apply IH. intros x Hx. apply HP. by right.
Qed.

Lemma NoDup_fmap_filter {A B} (f : A → B) (P : A → Prop)
    `{!∀ x, Decision (P x)} (l : list A) :
  NoDup (f <$> l) → NoDup (f <$> filter P l).
Proof.
  induction l as [|a l IH]; [done|].
  rewrite fmap_cons, NoDup_cons. intros [Hnotin Hnd].
  rewrite filter_cons. destruct (decide (P a)); [|by apply IH].
  rewrite fmap_cons. constructor; [|by apply IH].
  rewrite list_elem_of_fmap. intros (x & Hx & [_ Hin]%list_elem_of_filter).
  apply Hnotin. rewrite Hx. by apply list_elem_of_fmap_2.
Qed.

Lemma elem_of_value_ids (x : Z) pk rows :
  x ∈ (list_to_set (asv_value_id <$> rows_of pk rows) : gset Z)
  ↔ ∃ r, r ∈ rows ∧ asv_assignment_id r = pk ∧ asv_value_id r = x.
Proof.
  rewrite elem_of_list_to_set, list_elem_of_fmap. unfold rows_of.
  setoid_rewrite list_elem_of_filter. naive_solver.
Qed.

Lemma validate_owned attribute (ids : gset Z) st :
  ids ⊆ attribute_actual_value_ids st attribute
  → validate_attribute_owns_values attribute ids st = (st, Return tt).
Proof.
  intros Hsub. unfold validate_attribute_owns_values, mbind, M_bind, get_store.
  rewrite decide_False; [done|]. intros Hne. apply Hne. set_solver.
Qed.

Lemma validate_not_owned attribute (ids : gset Z) st :
  ¬ ids ⊆ attribute_actual_value_ids st attribute
  → validate_attribute_owns_values attribute ids st
    = (st, Raise ValueOwnershipError).
Proof.
  intros Hsub. unfold validate_attribute_owns_values, mbind, M_bind, get_store.
  rewrite decide_True; [done|]. intros Heq. apply Hsub. set_solver.
Qed.

Lemma owned_subseteq (values : list AttributeValue) st attribute :
  (∀ v, v ∈ values → av_pk v ∈ attribute_actual_value_ids st attribute)
  → (list_to_set (av_pk <$> values) : gset Z)
    ⊆ attribute_actual_value_ids st attribute.
Proof.
  intros Hvs x Hx%elem_of_list_to_set.
  apply list_elem_of_fmap in Hx as (v & -> & Hv). by apply Hvs.
Qed.

Section AssociatorProperties.

Context (queryset_order : list AssignedValue → list AssignedValue).
Context (queryset_order_perm : ∀ rows, queryset_order rows ≡ₚ rows).
Context (set_order : gset Z → list Z).
Context (set_order_perm : ∀ ids, set_order ids ≡ₚ elements ids).

Lemma elem_of_set_order (x : Z) (ids : gset Z) : x ∈ set_order ids ↔ x ∈ ids.
Proof. by rewrite set_order_perm, elem_of_elements. Qed.

Lemma NoDup_set_order (ids : gset Z) : NoDup (set_order ids).
Proof. rewrite set_order_perm. apply NoDup_elements. Qed.

Lemma set_order_empty : set_order ∅ = [].
Proof. apply Permutation_nil_r. by rewrite set_order_perm, elements_empty. Qed.

Lemma values_set_eq a objs st :
  let m := asg_model a in
  let t := tables st m in
  let pk := asg_pk (asg_row a) in
  let ids : gset Z := list_to_set (av_pk <$> objs) in
  let old : gset Z :=
    list_to_set (asv_value_id <$> rows_of pk (value_assignments t)) in
  values_set set_order a objs st
  = (set_tables st m
       (with_value_assignments t
          (set_rows set_order pk ids (value_assignments t)
                    (next_value_assignment_pk t))
          (next_value_assignment_pk t
           + Z.of_nat (length (set_order (ids ∖ old))))),
     Return tt).
Proof.
  intros m t pk ids old. unfold values_set.
  unfold mbind at 1, M_bind at 1, get_store at 1. cbv beta iota.
  fold m t pk old.
  pose proof (set_partition_spec objs old []) as H. cbv zeta in H.
  fold (set_partition old objs) in H.
  destruct (set_partition old objs) as [old' new_objs]. cbn [fst snd] in H.
  change (list_to_set (C:=gset Z) (av_pk <$> [])) with (∅ : gset Z) in H.
  fold ids in H. destruct H as (-> & H2 & H3).
  unfold values_remove, values_add, mbind, M_bind, get_store, put_store.
  cbv beta iota zeta. fold m pk.
  rewrite tables_set_tables, set_tables_twice.
  unfold with_value_assignments at 1 2 3 4 6.
  cbn [links assignments value_assignments next_assignment_pk
       next_value_assignment_pk].
  fold t. unfold set_rows. fold old.
  set (kept := filter _ (value_assignments t)).
  assert (Hkept : kept
    = filter (λ r, asv_assignment_id r = pk → asv_value_id r ∈ ids)
             (value_assignments t)).
  { subst kept. apply filter_ext_elem. intros r Hr.
    rewrite elem_of_difference. subst old. rewrite elem_of_value_ids.
    split.
    - intros Hn Hpk. destruct (decide (asv_value_id r ∈ ids)); [done|].
      exfalso. apply Hn. eauto 10.
    - intros Hi (Hpk & _ & Hnot). auto. }
  set (news := list_to_set (C:=gset Z) (av_pk <$> new_objs)) in *.
  assert (Hmiss :
    news ∖ list_to_set (asv_value_id <$>
             filter (λ r, asv_value_id r ∈ news) (rows_of pk kept))
    = ids ∖ old).
  { apply set_eq. intros x. rewrite !elem_of_difference.
    rewrite elem_of_list_to_set, list_elem_of_fmap.
    setoid_rewrite list_elem_of_filter. unfold rows_of.
    setoid_rewrite list_elem_of_filter. rewrite Hkept.
    setoid_rewrite list_elem_of_filter. subst old.
    rewrite elem_of_value_ids.
    split.
    - intros [Hx Hn].
      assert (x ∈ ids) as Hi.
      { apply H2, elem_of_union in Hx as [Hx|Hx]; [|done].
        by apply not_elem_of_empty in Hx. }
      split; [done|]. intros (r & Hr & Hpk & Hv). apply Hn.
      exists r. subst x. auto 10.
    - intros [Hi Hn]. split.
      + apply H3. rewrite elem_of_union, elem_of_difference.
        right. split; [done|]. by rewrite elem_of_value_ids.
      + intros (r & -> & _ & Hpk & _ & Hr). apply Hn. eauto. }
  unfold with_value_assignments. cbn [value_assignments].
  rewrite Hmiss. by rewrite Hkept.
Qed.

Lemma elem_of_new_rows r pk next ids :
  r ∈ new_rows pk next ids
  → asv_assignment_id r = pk ∧ asv_value_id r ∈ ids ∧ sort_order r = None
    ∧ next ≤ asv_pk r < next + Z.of_nat (length ids).
Proof.
  revert next. induction ids as [|id ids IH]; intros next; cbn [new_rows].
  - by intros ?%elem_of_nil.
  - rewrite elem_of_cons. intros [->|H]; cbn [length].
    + cbn. split_and!; [done|by left|done|lia..].
    + apply IH in H as (? & ? & ? & ?). split_and!; [done|by right|done|lia..].
Qed.

Lemma new_rows_value_ids pk next ids :
  asv_value_id <$> new_rows pk next ids = ids.
Proof.
  revert next. induction ids as [|id ids IH]; intros next; [done|].
  cbn [new_rows fmap list_fmap]. f_equal. apply IH.
Qed.

Lemma new_rows_pks pk next ids : NoDup (asv_pk <$> new_rows pk next ids).
Proof.
  revert next. induction ids as [|id ids IH]; intros next;
    cbn [new_rows fmap list_fmap]; [constructor|].
  constructor; [|apply IH].
  rewrite list_elem_of_fmap. intros (r & Hpk & Hr%elem_of_new_rows).
  cbn in Hpk. lia.
Qed.

Lemma rows_of_new_rows pk next ids :
  rows_of pk (new_rows pk next ids) = new_rows pk next ids.
Proof.
  apply filter_all. by intros r (-> & _)%elem_of_new_rows.
Qed.

Lemma rows_of_new_rows_ne pk pk' next ids :
  pk ≠ pk' → rows_of pk' (new_rows pk next ids) = [].
Proof.
  intros Hne. apply filter_none.
  intros r (? & _)%elem_of_new_rows. congruence.
Qed.

Lemma rows_of_set_rows pk ids rows next :
  rows_of pk (set_rows set_order pk ids rows next)
  = filter (λ r, asv_value_id r ∈ ids) (rows_of pk rows)
    ++ new_rows pk next
         (set_order (missing_ids pk ids rows)).
Proof.
  unfold set_rows. unfold rows_of at 1. rewrite filter_app.
  fold (rows_of pk (new_rows pk next
    (set_order (missing_ids pk ids rows)))).
  rewrite rows_of_new_rows. f_equal.
  unfold rows_of. rewrite !list_filter_filter.
  apply list_filter_iff. naive_solver.
Qed.

Lemma rows_of_set_rows_ne pk pk' ids rows next :
  pk ≠ pk'
  → rows_of pk' (set_rows set_order pk ids rows next) = rows_of pk' rows.
Proof.
  intros Hne. unfold set_rows. unfold rows_of at 1. rewrite filter_app.
  fold (rows_of pk' (new_rows pk next
    (set_order (missing_ids pk ids rows)))).
  rewrite rows_of_new_rows_ne, app_nil_r by done.
  unfold rows_of. rewrite list_filter_filter.
  apply list_filter_iff. naive_solver.
Qed.

(** After [set] the values of the assignment are exactly the requested
    ones. *)
Lemma set_rows_value_ids pk ids rows next :
  list_to_set
    (asv_value_id <$> rows_of pk (set_rows set_order pk ids rows next))
  = ids.
Proof.
  rewrite rows_of_set_rows, fmap_app, list_to_set_app_L, new_rows_value_ids.
  apply set_eq. intros x.
  rewrite elem_of_union, !elem_of_list_to_set, elem_of_set_order.
  unfold missing_ids.
  rewrite elem_of_difference, list_elem_of_fmap, elem_of_list_to_set.
  setoid_rewrite list_elem_of_filter.
  split; [naive_solver|]. intros Hx.
  destruct (decide (x ∈ asv_value_id <$> rows_of pk rows)) as [Hin|Hin];
    [|by right].
  left. apply list_elem_of_fmap in Hin as (r & -> & Hr). eauto.
Qed.

(** [set] keeps the constraints of the through table. *)
Lemma set_rows_wf pk ids rows next :
  NoDup ((λ r, (asv_assignment_id r, asv_value_id r)) <$> rows)
  → NoDup (asv_pk <$> rows)
  → (∀ r, r ∈ rows → asv_pk r < next)
  → let missing := set_order (missing_ids pk ids rows) in
    let rows' := set_rows set_order pk ids rows next in
    NoDup ((λ r, (asv_assignment_id r, asv_value_id r)) <$> rows')
    ∧ NoDup (asv_pk <$> rows')
    ∧ (∀ r, r ∈ rows' → asv_pk r < next + Z.of_nat (length missing)).
Proof.
  intros Huniq Hpk Hseq missing rows'. subst rows'. unfold set_rows.
  fold missing. split_and!.
  - rewrite fmap_app. apply NoDup_app. split_and!.
    + by apply NoDup_fmap_filter.
    + intros p (r & -> & [_ Hr]%list_elem_of_filter)%list_elem_of_fmap.
      intros (r' & Heq & Hr')%list_elem_of_fmap.
      apply elem_of_new_rows in Hr' as (Ha & Hv & _).
      subst missing. unfold missing_ids in Hv.
      apply elem_of_set_order, elem_of_difference in Hv as [_ Hv].
      apply Hv, elem_of_value_ids. exists r. split_and!; congruence.
    + assert (Hnd : NoDup missing) by apply NoDup_set_order.
      revert Hnd. generalize missing next. clear.
      intros missing. induction missing as [|id l IH]; intros next Hnd;
        cbn [new_rows fmap list_fmap]; [constructor|].
      apply NoDup_cons in Hnd as [Hid Hnd]. constructor; [|by apply IH].
      rewrite list_elem_of_fmap. intros (r & Heq & Hr%elem_of_new_rows).
      cbn in Heq. destruct Hr as (_ & Hv & _). congruence.
  - rewrite fmap_app. apply NoDup_app. split_and!.
    + by apply NoDup_fmap_filter.
    + intros p (r & -> & [_ Hr]%list_elem_of_filter)%list_elem_of_fmap.
      intros (r' & Heq & Hr')%list_elem_of_fmap.
      apply elem_of_new_rows in Hr' as (_ & _ & _ & Hlo & _).
      apply Hseq in Hr. lia.
    + apply new_rows_pks.
  - intros r [[_ Hr]%list_elem_of_filter|Hr]%elem_of_app.
    + apply Hseq in Hr. lia.
    + apply elem_of_new_rows in Hr. lia.
Qed.

(** ** [list.index] and [list.sort] *)

Lemma index_Some x l i : index x l = Some i → l !! i = Some x.
Proof.
  revert i. induction l as [|y l IH]; intros i; cbn [index]; [done|].
  destruct (decide (x = y)) as [->|Hne].
  - by intros [= <-].
  - destruct (index x l) as [j|]; [|done]. intros [= <-]. by apply IH.
Qed.

Lemma index_None x l : index x l = None ↔ x ∉ l.
Proof.
  induction l as [|y l IH]; cbn [index].
  - split; [intros _; apply not_elem_of_nil|done].
  - rewrite not_elem_of_cons. destruct (decide (x = y)) as [->|Hne].
    + naive_solver.
    + destruct (index x l); cbn; naive_solver.
Qed.

Lemma index_is_Some x l : x ∈ l → is_Some (index x l).
Proof.
  intros Hx. destruct (index x l) eqn:E; [eauto|]. by apply index_None in E.
Qed.

Lemma index_NoDup x l i : NoDup l → l !! i = Some x → index x l = Some i.
Proof.
  intros Hnd Hi. destruct (index_is_Some x l) as [j Hj];
    [by eapply list_elem_of_lookup_2|].
  rewrite Hj. f_equal. apply index_Some in Hj.
  by eapply NoDup_lookup.
Qed.

Lemma index_inj x y l i : index x l = Some i → index y l = Some i → x = y.
Proof. intros Hx%index_Some Hy%index_Some. congruence. Qed.

Lemma index_self l :
  NoDup l → (λ x, index x l) <$> l = Some <$> seq 0 (length l).
Proof.
  intros Hnd. apply list_eq. intros i. rewrite !list_lookup_fmap.
  destruct (l !! i) as [x|] eqn:E; cbn.
  - rewrite lookup_seq_lt by (by eapply lookup_lt_Some). cbn.
    f_equal. by apply index_NoDup.
  - by rewrite lookup_seq_ge by (by apply lookup_ge_None).
Qed.

Lemma Sorted_le_seq j n : Sorted le (seq j n).
Proof.
  revert j. induction n as [|n IH]; intros j; cbn; constructor; [apply IH|].
  destruct n; cbn; constructor. lia.
Qed.

Lemma NoDup_fmap_coarser {A B C} (f : A → B) (g : A → C) (l : list A) :
  (∀ x y, x ∈ l → y ∈ l → f x = f y → g x = g y)
  → NoDup (g <$> l) → NoDup (f <$> l).
Proof.
  induction l as [|a l IH]; intros Hfg; [intros _; apply NoDup_nil_2|].
  rewrite !fmap_cons, !NoDup_cons. intros [Ha Hnd]. split.
  - intros (x & Hx & Hin)%list_elem_of_fmap. apply Ha.
    rewrite (Hfg a x); [by apply list_elem_of_fmap_2|by left|by right|].
    done.
  - apply IH; [|done]. intros x y Hx Hy. apply Hfg; by right.
Qed.

Lemma insert_by_key_Permutation {A} k (x : A) l :
  insert_by_key k x l ≡ₚ (k, x) :: l.
Proof.
  induction l as [|[k' y] l IH]; cbn [insert_by_key]; [done|].
  case_decide; [|done]. rewrite IH. apply Permutation_swap.
Qed.

Lemma sort_keyed_Permutation {A} (l : list (nat * A)) : sort_keyed l ≡ₚ l.
Proof.
  induction l as [|[k x] l IH]; [done|]. cbn [sort_keyed foldr fst snd].
  rewrite insert_by_key_Permutation. by constructor.
Qed.

Lemma insert_by_key_Sorted {A} k (x : A) l :
  Sorted le (fst <$> l) → Sorted le (fst <$> insert_by_key k x l).
Proof.
  induction l as [|[k' y] l IH]; cbn [insert_by_key fmap list_fmap fst].
  - repeat constructor.
  - intros Hs. apply Sorted_inv in Hs as [Hs Hhd].
    case_decide; cbn [fmap list_fmap fst].
    + constructor; [by apply IH|].
      destruct l as [|[k'' z] l]; cbn [insert_by_key].
      * constructor. cbn. lia.
      * case_decide; constructor; cbn; [|lia].
        by apply HdRel_inv in Hhd.
    + constructor; [by constructor|]. constructor. cbn. lia.
Qed.

Lemma sort_keyed_Sorted {A} (l : list (nat * A)) :
  Sorted le (fst <$> sort_keyed l).
Proof.
  induction l as [|[k x] l IH]; [constructor|].
  cbn [sort_keyed foldr fst snd]. by apply insert_by_key_Sorted.
Qed.

Lemma sort_by_index_Some pks rows sorted :
  sort_by_index pks rows = Some sorted
  → sorted ≡ₚ rows
    ∧ Sorted le (key_of pks <$> sorted)
    ∧ ∀ r, r ∈ rows → asv_value_id r ∈ pks.
Proof.
  unfold sort_by_index.
  destruct (mapM _ rows) as [keyed|] eqn:E; [|done]. cbn. intros [= <-].
  apply mapM_Some in E.
  assert (snd <$> keyed = rows
          ∧ Forall (λ p, index (asv_value_id p.2) pks = Some p.1) keyed)
    as [Hsnd Hkey].
  { induction E as [|r p rows keyed Hp _ [IH1 IH2]]; [by split|].
    destruct (index (asv_value_id r) pks) as [i|] eqn:Hi; [|done].
    cbn in Hp. injection Hp as <-. cbn. split; [by f_equal|].
    by constructor. }
  pose proof (sort_keyed_Permutation keyed) as Hperm.
  split_and!.
  - by rewrite Hperm, Hsnd.
  - assert (Forall (λ p, index (asv_value_id p.2) pks = Some p.1)
                   (sort_keyed keyed)) as Hkey' by (by rewrite Hperm).
    pose proof (sort_keyed_Sorted keyed) as Hs.
    replace (key_of pks <$> (snd <$> sort_keyed keyed))
      with (fst <$> sort_keyed keyed); [done|].
    rewrite <-list_fmap_compose. apply Forall_fmap_ext_1.
    eapply Forall_impl; [exact Hkey'|]. intros [k r] Hk. cbn in *.
    unfold key_of. by rewrite Hk.
  - intros r Hr. rewrite <-Hsnd in Hr.
    apply list_elem_of_fmap in Hr as ([k r'] & -> & Hp).
    rewrite Forall_forall in Hkey. apply Hkey in Hp. cbn in *.
    eapply list_elem_of_lookup_2, index_Some, Hp.
Qed.

Lemma sort_by_index_is_Some pks rows :
  (∀ r, r ∈ rows → asv_value_id r ∈ pks)
  → is_Some (sort_by_index pks rows).
Proof.
  intros H. unfold sort_by_index.
  destruct (mapM _ rows) as [keyed|] eqn:E; [by eexists|]. exfalso.
  assert (is_Some (mapM (λ e, (λ i, (i, e)) <$> index (asv_value_id e) pks)
                        rows)) as [? Hs]; [|congruence].
  apply mapM_is_Some, Forall_forall. intros r Hr. cbn.
  destruct (index_is_Some (asv_value_id r) pks) as [i Hi]; [by apply H|].
  rewrite Hi. by eexists.
Qed.

Lemma sort_by_index_None pks rows r :
  r ∈ rows → asv_value_id r ∉ pks → sort_by_index pks rows = None.
Proof.
  intros Hr Hv. destruct (sort_by_index pks rows) as [sorted|] eqn:E; [|done].
  apply sort_by_index_Some in E as (_ & _ & H). by apply H in Hr.
Qed.

(** Two rearrangements of the same values, both sorted by their position
    in [pks], list the values in the same order. *)
Lemma sorted_value_ids_unique pks (l1 l2 : list AssignedValue) :
  Sorted le (key_of pks <$> l1) → Sorted le (key_of pks <$> l2)
  → asv_value_id <$> l1 ≡ₚ asv_value_id <$> l2
  → (∀ r, r ∈ l1 → asv_value_id r ∈ pks)
  → asv_value_id <$> l1 = asv_value_id <$> l2.
Proof.
  intros Hs1 Hs2 Hperm Hin.
  set (f := λ v : Z, default 0%nat (index v pks)).
  assert (Hk : ∀ l, key_of pks <$> l = f <$> (asv_value_id <$> l))
    by (intros l; by rewrite <-list_fmap_compose).
  rewrite Hk in Hs1, Hs2.
  assert (Hin1 : Forall (λ v, v ∈ pks) (asv_value_id <$> l1)).
  { apply Forall_forall. intros v (r & -> & Hr)%list_elem_of_fmap. auto. }
  assert (Hin2 : Forall (λ v, v ∈ pks) (asv_value_id <$> l2))
    by (by rewrite <-Hperm).
  assert (Heq : f <$> (asv_value_id <$> l1) = f <$> (asv_value_id <$> l2)).
  { apply (Sorted_unique le); [done..|]. by rewrite Hperm. }
  revert Hin1 Hin2 Heq.
  generalize (asv_value_id <$> l1) (asv_value_id <$> l2). clear -f.
  intros k1. induction k1 as [|x k1 IH]; intros [|y k2]; try done.
  rewrite !Forall_cons, !fmap_cons. intros [Hx H1] [Hy H2] [= Hf Heq].
  f_equal; [|by apply IH].
  destruct (index_is_Some x pks Hx) as [i Hi].
  destruct (index_is_Some y pks Hy) as [j Hj].
  unfold f in Hf. rewrite Hi, Hj in Hf. cbn in Hf. subst j.
  by eapply index_inj.
Qed.

(** ** [bulk_update] after [enumerate] *)

Lemma update_sort_order_enumerate sorted r j r' :
  NoDup (asv_pk <$> sorted) → sorted !! j = Some r' → asv_pk r' = asv_pk r
  → update_sort_order (enumerate_sort_order sorted) r
    = with_sort_order r (Some j).
Proof.
  intros Hnd Hj Hpk. unfold update_sort_order, enumerate_sort_order.
  assert (list_find (λ o, asv_pk o = asv_pk r)
            (imap (λ i r, with_sort_order r (Some i)) sorted)
          = Some (j, with_sort_order r' (Some j))) as ->; [|done].
  apply list_find_Some. split_and!.
  - by rewrite list_lookup_imap, Hj.
  - done.
  - intros i y. rewrite list_lookup_imap.
    destruct (sorted !! i) as [ri|] eqn:Hi; [|done]. cbn.
    intros [= <-] Hlt Heq. cbn in Heq.
    assert (i = j); [|lia].
    eapply NoDup_lookup; [exact Hnd|rewrite list_lookup_fmap, Hi
                                   |rewrite list_lookup_fmap, Hj]; cbn;
      [done|congruence].
Qed.

Lemma update_sort_order_other objs r :
  asv_pk r ∉ asv_pk <$> objs → update_sort_order objs r = r.
Proof.
  intros Hr. unfold update_sort_order.
  destruct (list_find _ objs) as [[i o]|] eqn:E; [|done].
  apply list_find_Some in E as (Hi & Hpk & _). exfalso. apply Hr.
  rewrite <-Hpk. eapply list_elem_of_fmap_2, list_elem_of_lookup_2, Hi.
Qed.

Lemma update_sort_order_fields objs r :
  asv_pk (update_sort_order objs r) = asv_pk r
  ∧ asv_assignment_id (update_sort_order objs r) = asv_assignment_id r
  ∧ asv_value_id (update_sort_order objs r) = asv_value_id r.
Proof.
  unfold update_sort_order. by destruct (list_find _ objs) as [[i o]|].
Qed.

Lemma enumerate_sort_order_pks sorted :
  asv_pk <$> enumerate_sort_order sorted = asv_pk <$> sorted.
Proof.
  unfold enumerate_sort_order. rewrite fmap_imap.
  rewrite <-(imap_const asv_pk). by apply imap_ext.
Qed.

Lemma rows_of_update objs pk rows :
  rows_of pk (update_sort_order objs <$> rows)
  = update_sort_order objs <$> rows_of pk rows.
Proof.
  unfold rows_of. induction rows as [|r rows IH]; [done|].
  rewrite fmap_cons, !filter_cons, IH.
  destruct (update_sort_order_fields objs r) as (_ & -> & _).
  by case_decide.
Qed.

(** ** Lookups under a uniqueness constraint *)

Lemma filter_unique {A B} `{EqDecision B} (f : A → B) (k : B) (l : list A) x :
  NoDup (f <$> l) → x ∈ l → f x = k → filter (λ y, f y = k) l = [x].
Proof.
  induction l as [|a l IH]; [by intros _ ?%elem_of_nil|].
  rewrite fmap_cons, NoDup_cons, elem_of_cons. intros [Ha Hnd] Hx Hk.
  rewrite filter_cons. destruct (decide (f a = k)) as [Hfa|Hfa].
  - assert (x = a) as ->.
    { destruct Hx as [->|Hx]; [done|]. exfalso. apply Ha.
      rewrite Hfa, <-Hk. by apply list_elem_of_fmap_2. }
    f_equal. apply filter_none. intros y Hy Hfy. apply Ha.
    rewrite Hfa, <-Hfy. by apply list_elem_of_fmap_2.
  - destruct Hx as [->|Hx]; [done|]. by apply IH.
Qed.

Lemma filter_at_most_one {A B} `{EqDecision B} (f : A → B) (k : B)
    (l : list A) :
  NoDup (f <$> l)
  → filter (λ y, f y = k) l = [] ∨ ∃ x, filter (λ y, f y = k) l = [x].
Proof.
  intros Hnd. destruct (filter (λ y, f y = k) l) as [|x l'] eqn:E; [by left|].
  right. exists x.
  assert (x ∈ filter (λ y, f y = k) l) as Hx by (rewrite E; by left).
  apply list_elem_of_filter in Hx as [Hk Hx].
  rewrite <-E. by apply filter_unique.
Qed.

Lemma link_rows_unique st rel attribute_id link :
  wf_tables (tables st (lm_model rel))
  → link ∈ links (tables st (lm_model rel))
  → link_owner_id link = lm_owner_id rel
  → link_attribute_id link = attribute_id
  → link_rows st rel attribute_id = [link].
Proof.
  intros Hwf Hin Ho Ha. unfold link_rows.
  rewrite <-(filter_unique (λ l, (link_owner_id l, link_attribute_id l))
               (lm_owner_id rel, attribute_id)
               (links (tables st (lm_model rel))) link);
    [|apply Hwf|done|cbn; congruence].
  apply list_filter_iff. intros l.
  split; [by intros [-> ->]|by intros [= -> ->]].
Qed.

Lemma link_rows_elem st rel attribute_id link :
  link ∈ link_rows st rel attribute_id
  ↔ link ∈ links (tables st (lm_model rel))
    ∧ link_owner_id link = lm_owner_id rel
    ∧ link_attribute_id link = attribute_id.
Proof. unfold link_rows. rewrite list_elem_of_filter. naive_solver. Qed.

Lemma assignment_rows_cases t instance_id link_id :
  wf_tables t
  → assignment_rows t instance_id link_id = []
    ∨ ∃ row, assignment_rows t instance_id link_id = [row].
Proof.
  intros Hwf. unfold assignment_rows.
  destruct (filter_at_most_one
              (λ a, (asg_instance_id a, asg_assignment_id a))
              (instance_id, link_id) (assignments t)) as [H|[row H]];
    [apply Hwf|left|right; exists row]; rewrite <-H;
    apply list_filter_iff; intros a;
    (split; [by intros [-> ->]|by intros [= -> ->]]).
Qed.

Lemma assignment_rows_elem t instance_id link_id row :
  row ∈ assignment_rows t instance_id link_id
  ↔ row ∈ assignments t ∧ asg_instance_id row = instance_id
    ∧ asg_assignment_id row = link_id.
Proof. unfold assignment_rows. rewrite list_elem_of_filter. naive_solver. Qed.


(** ** The functions, step by step *)


(** [set] with the values the assignment already has changes nothing. *)
Lemma set_rows_noop pk (ids : gset Z) rows next :
  list_to_set (asv_value_id <$> rows_of pk rows) = ids
  → set_rows set_order pk ids rows next = rows
    ∧ set_order (missing_ids pk ids rows) = [].
Proof.
  intros Hids. unfold set_rows, missing_ids. rewrite Hids.
  rewrite difference_diag_L, set_order_empty. cbn [new_rows].
  split; [|done].
  rewrite app_nil_r. apply filter_all. intros r Hr Hpk.
  rewrite <-Hids. apply elem_of_value_ids. eauto.
Qed.

Lemma associate_to_instance_link instance attribute_pk site_settings rel st :
  link_collection instance site_settings = Some rel
  → model_of instance = Some (lm_model rel)
    ∧ _associate_attribute_to_instance instance attribute_pk site_settings st
      = match queryset_get (link_rows st rel attribute_pk) with
        | Return attribute_rel =>
            get_or_create (lm_model rel) (instance_pk instance)
                          attribute_rel st
        | Raise e => (st, Raise e)
        end.
Proof.
  destruct instance as [pk ty|pk ty|pk ty|pk|pk|name pk]; cbn;
    try destruct site_settings as [settings|]; cbn; intros [= <-];
    (split; [done|]);
    unfold _get_associate_category_or_collection_attribute, link_manager_get,
      instance_to_assignment_mapping, getattr_site_settings,
      mbind, M_bind, get_store, lift; cbn;
    eval_decide;
    by destruct (queryset_get _).
Qed.

Lemma associate_to_instance_no_context instance attribute_pk st :
  model_of instance = Some Category ∨ model_of instance = Some Collection
  → _associate_attribute_to_instance instance attribute_pk None st
    = (st, Raise AttributeError).
Proof.
  by destruct instance as [pk ty|pk ty|pk ty|pk|pk|name pk];
    intros [[=]|[=]].
Qed.

Lemma associate_to_instance_unsupported name pk attribute_pk site_settings st :
  _associate_attribute_to_instance (IOther name pk) attribute_pk
                                   site_settings st
  = (st, Raise (UnsupportedEntityError name)).
Proof. done. Qed.

Lemma get_or_create_cases model instance_id attribute_rel st :
  wf_tables (tables st model)
  → let t := tables st model in
    (∃ row, assignment_rows t instance_id (link_pk attribute_rel) = [row]
       ∧ get_or_create model instance_id attribute_rel st
         = (st, Return {| asg_model := model; asg_row := row |}))
    ∨ (assignment_rows t instance_id (link_pk attribute_rel) = []
       ∧ let row := {| asg_pk := next_assignment_pk t;
                       asg_instance_id := instance_id;
                       asg_assignment_id := link_pk attribute_rel |} in
         get_or_create model instance_id attribute_rel st
         = (set_tables st model
              (with_assignments t (assignments t ++ [row])
                                (next_assignment_pk t + 1)),
            Return {| asg_model := model; asg_row := row |})).
Proof.
  intros Hwf t. unfold get_or_create, mbind, M_bind, get_store. fold t.
  destruct (assignment_rows_cases t instance_id (link_pk attribute_rel) Hwf)
    as [H|[row H]]; rewrite H; [right|left; exists row]; done.
Qed.

Lemma sort_values_eq instance a values st :
  model_of instance = Some (asg_model a)
  → let t := tables st (asg_model a) in
    sort_assigned_attribute_values queryset_order instance a values st
    = match sort_by_index (av_pk <$> values)
              (queryset_order (assigned_rows st a)) with
      | None => (st, Raise ValueError)
      | Some sorted =>
          (set_tables st (asg_model a)
             (with_value_assignments t
                (update_sort_order (enumerate_sort_order sorted)
                   <$> value_assignments t)
                (next_value_assignment_pk t)),
           Return tt)
      end.
Proof.
  intros Hm t. unfold sort_assigned_attribute_values, assigned_rows.
  destruct a as [m row]. cbn [asg_model asg_row] in *.
  destruct instance as [pk ty|pk ty|pk ty|pk|pk|name pk];
    cbn in Hm; simplify_eq;
    unfold instance_to_value_assignment_mapping; cbn; eval_decide;
    unfold getattr_assignment, mbind, M_bind, get_store, bulk_update; cbn;
    eval_decide; unfold mret, M_ret, mbind, M_bind, get_store; cbn;
    by destruct (sort_by_index _ _).
Qed.

Lemma associate_eq instance attribute values site_settings st :
  associate_attribute_values_to_instance queryset_order set_order
    instance attribute values site_settings st
  = if decide (list_to_set (av_pk <$> values)
               ⊆ attribute_actual_value_ids st attribute)
    then
      match _associate_attribute_to_instance instance (attr_pk attribute)
              site_settings st with
      | (st1, Return a) =>
          match values_set set_order a values st1 with
          | (st2, Return _) =>
              match sort_assigned_attribute_values queryset_order instance a
                      values st2 with
              | (st3, Return _) => (st3, Return a)
              | (st3, Raise e) => (st3, Raise e)
              end
          | (st2, Raise e) => (st2, Raise e)
          end
      | (st1, Raise e) => (st1, Raise e)
      end
    else (st, Raise ValueOwnershipError).
Proof.
  unfold associate_attribute_values_to_instance.
  case_decide as Hsub.
  - erewrite bind_return by (by apply validate_owned).
    unfold mbind, M_bind.
    destruct (_associate_attribute_to_instance _ _ _ _) as [st1 [a|e]];
      [|done].
    destruct (values_set set_order a values st1) as [st2 [[]|e]]; [|done].
    by destruct (sort_assigned_attribute_values _ _ _ _ _) as [st3 [[]|e]].
  - by erewrite bind_raise by (by apply validate_not_owned).
Qed.

(** What a successful [_associate_attribute_to_instance] did. *)
Lemma associate_to_instance_Return instance attribute_pk site_settings st st1
    a :
  _associate_attribute_to_instance instance attribute_pk site_settings st
  = (st1, Return a)
  → ∃ rel link,
      link_collection instance site_settings = Some rel
      ∧ link_rows st rel attribute_pk = [link]
      ∧ model_of instance = Some (asg_model a)
      ∧ asg_model a = lm_model rel
      ∧ asg_instance_id (asg_row a) = instance_pk instance
      ∧ asg_assignment_id (asg_row a) = link_pk link
      ∧ assignment_step st a st1.
Proof.
  intros Hrun.
  destruct (link_collection instance site_settings) as [rel|] eqn:Hrel.
  - destruct (associate_to_instance_link instance attribute_pk site_settings
                rel st Hrel) as [Hm Heq].
    rewrite Heq in Hrun. clear Heq. exists rel.
    destruct (link_rows st rel attribute_pk) as [|link [|link' rows]] eqn:Hl;
      cbn in Hrun; [done| |done].
    exists link. unfold get_or_create, mbind, M_bind, get_store in Hrun.
    unfold assignment_step.
    destruct (assignment_rows _ _ _) as [|row [|row' rows]] eqn:Hr;
      cbn in Hrun; [| |done]; injection Hrun as <- <-;
      cbn [asg_model asg_row asg_pk asg_instance_id asg_assignment_id].
    + split_and!; try done. right. by rewrite Hr.
    + assert (row ∈ assignment_rows (tables st (lm_model rel))
                      (instance_pk instance) (link_pk link)) as Hin
        by (rewrite Hr; by left).
      apply assignment_rows_elem in Hin as (_ & Hi & Hk).
      split_and!; try done. left. by rewrite Hi, Hk, Hr.
  - exfalso.
    destruct instance as [pk ty|pk ty|pk ty|pk|pk|name pk];
      try destruct site_settings as [settings|]; done.
Qed.

(** The run after the assignment is resolved: [set] then the sort, which
    cannot fail on the rows [set] left. *)
Lemma associate_tail instance a values st1 :
  model_of instance = Some (asg_model a)
  → let t := tables st1 (asg_model a) in
    let pk := asg_pk (asg_row a) in
    let ids : gset Z := list_to_set (av_pk <$> values) in
    let rows2 :=
      set_rows set_order pk ids (value_assignments t)
               (next_value_assignment_pk t) in
    ∃ st2 sorted,
      values_set set_order a values st1 = (st2, Return tt)
      ∧ value_assignments (tables st2 (asg_model a)) = rows2
      ∧ sort_by_index (av_pk <$> values) (queryset_order (rows_of pk rows2))
        = Some sorted
      ∧ sort_assigned_attribute_values queryset_order instance a values st2
        = (set_tables st1 (asg_model a)
                      (final_tables set_order sorted t pk ids),
           Return tt).
Proof.
  intros Hm t pk ids rows2.
  destruct (sort_by_index_is_Some (av_pk <$> values)
              (queryset_order (rows_of pk rows2))) as [sorted Hs].
  { intros r. rewrite queryset_order_perm. intros Hr.
    assert (asv_value_id r ∈ ids) as Hi; [|by apply elem_of_list_to_set in Hi].
    rewrite <-(set_rows_value_ids pk ids (value_assignments t)
                 (next_value_assignment_pk t)).
    apply elem_of_list_to_set. by apply list_elem_of_fmap_2. }
  eexists _, sorted.
  split; [apply values_set_eq|]. fold t pk ids rows2.
  rewrite tables_set_tables. split; [done|].
  split; [exact Hs|].
  rewrite sort_values_eq by done. unfold assigned_rows.
  rewrite tables_set_tables. cbn [value_assignments with_value_assignments].
  fold pk. rewrite Hs, set_tables_twice. done.
Qed.

Lemma NoDup_fmap_elem_inj {A B} (f : A → B) (l : list A) x y :
  NoDup (f <$> l) → x ∈ l → y ∈ l → f x = f y → x = y.
Proof.
  intros Hnd [i Hi]%list_elem_of_lookup [j Hj]%list_elem_of_lookup Hf.
  assert (i = j) as ->; [|congruence].
  eapply NoDup_lookup; [exact Hnd|rewrite list_lookup_fmap, Hi
                                 |rewrite list_lookup_fmap, Hj]; cbn;
    [done|congruence].
Qed.

(** The batched update touches the rows of the assignment only, and gives
    each its position in the sorted list. *)
Lemma resort_row rows pk sorted r :
  NoDup (asv_pk <$> rows) → sorted ≡ₚ rows_of pk rows → r ∈ rows
  → (asv_assignment_id r ≠ pk
     → update_sort_order (enumerate_sort_order sorted) r = r)
    ∧ (asv_assignment_id r = pk
       → ∃ j, sorted !! j = Some r
              ∧ update_sort_order (enumerate_sort_order sorted) r
                = with_sort_order r (Some j)).
Proof.
  intros Hnd Hperm Hr. split.
  - intros Hne. apply update_sort_order_other.
    rewrite enumerate_sort_order_pks, Hperm.
    intros (r' & Hpk & [Ha Hr']%list_elem_of_filter)%list_elem_of_fmap.
    assert (r = r') by (by eapply (NoDup_fmap_elem_inj asv_pk)).
    congruence.
  - intros Ha.
    assert (r ∈ sorted) as [j Hj]%list_elem_of_lookup.
    { rewrite Hperm. by apply list_elem_of_filter. }
    exists j. split; [done|].
    eapply update_sort_order_enumerate; [|done..].
    rewrite Hperm. by apply NoDup_fmap_filter.
Qed.

Lemma assignment_step_frame st a st1 :
  assignment_step st a st1
  → attribute_values st1 = attribute_values st
    ∧ (∀ m, links (tables st1 m) = links (tables st m))
    ∧ (∀ m, value_assignments (tables st1 m) = value_assignments (tables st m))
    ∧ (∀ m, next_value_assignment_pk (tables st1 m)
            = next_value_assignment_pk (tables st m))
    ∧ (∀ m, m ≠ asg_model a → tables st1 m = tables st m)
    ∧ (assignments (tables st1 (asg_model a))
       = assignments (tables st (asg_model a))
       ∨ assignments (tables st1 (asg_model a))
         = assignments (tables st (asg_model a)) ++ [asg_row a])
    ∧ asg_row a ∈ assignments (tables st1 (asg_model a)).
Proof.
  intros [[-> Hr]|(-> & Hr & Hpk)].
  - split_and!; try done; [by left|].
    assert (asg_row a ∈ assignment_rows (tables st (asg_model a))
              (asg_instance_id (asg_row a)) (asg_assignment_id (asg_row a)))
      as Hin by (rewrite Hr; by left).
    by apply assignment_rows_elem in Hin as (? & _).
  - rewrite attribute_values_set_tables, tables_set_tables.
    split_and!; try done.
    + intros m. destruct (decide (asg_model a = m)) as [<-|Hne];
        [by rewrite tables_set_tables|by rewrite tables_set_tables_ne].
    + intros m. destruct (decide (asg_model a = m)) as [<-|Hne];
        [by rewrite tables_set_tables|by rewrite tables_set_tables_ne].
    + intros m. destruct (decide (asg_model a = m)) as [<-|Hne];
        [by rewrite tables_set_tables|by rewrite tables_set_tables_ne].
    + intros m Hne. by rewrite tables_set_tables_ne.
    + by right.
    + cbn. apply elem_of_app. right. by left.
Qed.

Lemma assignment_step_wf st a st1 :
  wf_store st → assignment_step st a st1 → wf_store st1.
Proof.
  intros Hwf [[-> Hr]|(-> & Hr & Hpk)]; [done|].
  intros m. destruct (decide (asg_model a = m)) as [<-|Hne];
    [|by rewrite tables_set_tables_ne].
  rewrite tables_set_tables. destruct (Hwf (asg_model a)).
  constructor; cbn; try done.
  - rewrite fmap_app. apply NoDup_app. split_and!; [done| |].
    + intros p (row & -> & Hrow)%list_elem_of_fmap. cbn.
      intros [[= Hi Hk]|?%elem_of_nil]%elem_of_cons; [|done].
      assert (row ∈ assignment_rows (tables st (asg_model a))
                (asg_instance_id (asg_row a)) (asg_assignment_id (asg_row a)))
        as Hin; [|by rewrite Hr in Hin; apply elem_of_nil in Hin].
      apply assignment_rows_elem. split_and!; [done|congruence..].
    + cbn. apply NoDup_singleton.
  - rewrite fmap_app. apply NoDup_app. split_and!; [done| |].
    + intros p (row & -> & Hrow)%list_elem_of_fmap. cbn.
      intros [Heq|?%elem_of_nil]%elem_of_cons; [|done].
      apply wf_assignment_seq0 in Hrow. lia.
    + cbn. apply NoDup_singleton.
  - intros row [Hrow|[->|?%elem_of_nil]%elem_of_cons]%elem_of_app;
      [|lia|done].
    apply wf_assignment_seq0 in Hrow. lia.
Qed.

Lemma update_sort_order_elem objs (rows : list AssignedValue) r :
  r ∈ update_sort_order objs <$> rows
  → ∃ r0, r0 ∈ rows ∧ r = update_sort_order objs r0
          ∧ asv_pk r = asv_pk r0
          ∧ asv_assignment_id r = asv_assignment_id r0
          ∧ asv_value_id r = asv_value_id r0.
Proof.
  intros (r0 & -> & Hr0)%list_elem_of_fmap. exists r0.
  destruct (update_sort_order_fields objs r0) as (? & ? & ?). done.
Qed.

Lemma final_tables_wf sorted t pk ids :
  wf_tables t → wf_tables (final_tables set_order sorted t pk ids).
Proof.
  intros [].
  destruct (set_rows_wf pk ids (value_assignments t)
              (next_value_assignment_pk t)) as (Hu & Hp & Hs); [done..|].
  set (objs := enumerate_sort_order sorted).
  constructor; cbn; try done; fold objs.
  - rewrite <-list_fmap_compose.
    erewrite list_fmap_ext; [exact Hu|]. intros i r _. cbn.
    by destruct (update_sort_order_fields objs r) as (_ & -> & ->).
  - rewrite <-list_fmap_compose.
    erewrite list_fmap_ext; [exact Hp|]. intros i r _. cbn.
    by destruct (update_sort_order_fields objs r) as (-> & _).
  - intros r (r0 & Hr0 & _ & -> & _)%update_sort_order_elem. by apply Hs.
Qed.

(** What a successful call did: the values were owned, the assignment was
    resolved, and the through table is the one [set] and the sort leave. *)
Lemma associate_Return instance attribute values site_settings st st' a :
  associate_attribute_values_to_instance queryset_order set_order
    instance attribute values site_settings st = (st', Return a)
  → ∃ st1 sorted,
      let t := tables st1 (asg_model a) in
      let pk := asg_pk (asg_row a) in
      let ids : gset Z := list_to_set (av_pk <$> values) in
      ids ⊆ attribute_actual_value_ids st attribute
      ∧ _associate_attribute_to_instance instance (attr_pk attribute)
          site_settings st = (st1, Return a)
      ∧ sort_by_index (av_pk <$> values)
          (queryset_order
             (rows_of pk (set_rows set_order pk ids (value_assignments t)
                                   (next_value_assignment_pk t))))
        = Some sorted
      ∧ st' = set_tables st1 (asg_model a)
                         (final_tables set_order sorted t pk ids).
Proof.
  rewrite associate_eq. case_decide as Hsub; [|done].
  destruct (_associate_attribute_to_instance _ _ _ _) as [st1 [a'|e]] eqn:Ha;
    [|done].
  destruct (associate_to_instance_Return _ _ _ _ _ _ Ha)
    as (rel & link & _ & _ & Hm & _).
  destruct (associate_tail instance a' values st1 Hm)
    as (st2 & sorted & -> & _ & Hs & ->).
  intros [= <- <-]. by exists st1, sorted.
Qed.

(** A call whose values are owned and whose assignment resolves
    succeeds. *)
Lemma associate_resolved instance attribute values site_settings st st1 a :
  list_to_set (av_pk <$> values) ⊆ attribute_actual_value_ids st attribute
  → _associate_attribute_to_instance instance (attr_pk attribute)
      site_settings st = (st1, Return a)
  → ∃ st', associate_attribute_values_to_instance queryset_order set_order
             instance attribute values site_settings st = (st', Return a).
Proof.
  intros Hsub Ha. rewrite associate_eq, decide_True, Ha by done.
  destruct (associate_to_instance_Return _ _ _ _ _ _ Ha)
    as (rel & link & _ & _ & Hm & _).
  destruct (associate_tail instance a values st1 Hm)
    as (st2 & sorted & -> & _ & Hs & ->). by eexists.
Qed.


(** A failing [_associate_attribute_to_instance] wrote nothing. *)
Lemma associate_to_instance_Raise instance attribute_pk site_settings st st1
    e :
  _associate_attribute_to_instance instance attribute_pk site_settings st
  = (st1, Raise e)
  → st1 = st.
Proof.
  intros Hrun.
  destruct (link_collection instance site_settings) as [rel|] eqn:Hrel.
  - destruct (associate_to_instance_link instance attribute_pk site_settings
                rel st Hrel) as [_ Heq].
    rewrite Heq in Hrun. clear Heq.
    destruct (queryset_get _) as [link|e']; [|by injection Hrun].
    unfold get_or_create, mbind, M_bind, get_store in Hrun.
    destruct (assignment_rows _ _ _) as [|row [|row' rows]];
      unfold put_store, mret, M_ret, raise in Hrun; by simplify_eq.
  - destruct instance as [pk ty|pk ty|pk ty|pk|pk|name pk];
      try destruct site_settings as [settings|]; cbn in Hrel; try done;
      first [ rewrite associate_to_instance_no_context in Hrun
                by (cbn; auto)
            | rewrite associate_to_instance_unsupported in Hrun ];
      by simplify_eq.
Qed.

(** A failing call wrote nothing. *)
Lemma associate_Raise instance attribute values site_settings st st' e :
  associate_attribute_values_to_instance queryset_order set_order
    instance attribute values site_settings st = (st', Raise e)
  → st' = st.
Proof.
  rewrite associate_eq. case_decide as Hsub; [|by intros [= <-]].
  destruct (_associate_attribute_to_instance _ _ _ _) as [st1 [a|e']] eqn:Ha.
  - destruct (associate_to_instance_Return _ _ _ _ _ _ Ha)
      as (rel & link & _ & _ & Hm & _).
    by destruct (associate_tail instance a values st1 Hm)
      as (st2 & sorted & -> & _ & Hs & ->).
  - apply associate_to_instance_Raise in Ha as ->. by intros [= <-].
Qed.

(** Every call keeps the schema constraints, whatever its outcome. *)
Lemma associate_wf instance attribute values site_settings st :
  wf_store st
  → wf_store (associate_attribute_values_to_instance queryset_order set_order
                instance attribute values site_settings st).1.
Proof.
  intros Hwf. rewrite associate_eq. case_decide as Hsub; [|done].
  destruct (_associate_attribute_to_instance _ _ _ _) as [st1 [a|e]] eqn:Ha.
  - destruct (associate_to_instance_Return _ _ _ _ _ _ Ha)
      as (rel & link & _ & _ & Hm & _ & _ & _ & Hstep).
    apply assignment_step_wf in Hstep; [|done].
    destruct (associate_tail instance a values st1 Hm)
      as (st2 & sorted & -> & _ & Hs & ->). cbn.
    intros m. destruct (decide (asg_model a = m)) as [<-|Hne];
      [|by rewrite tables_set_tables_ne].
    rewrite tables_set_tables. by apply final_tables_wf.
  - by apply associate_to_instance_Raise in Ha as ->.
Qed.

(** A resolved assignment is found again in any store that has the same
    links and the same assignment rows. *)
Lemma associate_to_instance_reuse instance attribute_pk site_settings st st1
    a st' :
  _associate_attribute_to_instance instance attribute_pk site_settings st
  = (st1, Return a)
  → links (tables st' (asg_model a)) = links (tables st (asg_model a))
  → assignments (tables st' (asg_model a))
    = assignments (tables st1 (asg_model a))
  → _associate_attribute_to_instance instance attribute_pk site_settings st'
    = (st', Return a).
Proof.
  intros Ha Hlinks Hasg.
  destruct (associate_to_instance_Return _ _ _ _ _ _ Ha)
    as (rel & link & Hrel & Hl & Hm & Hmodel & Hi & Hk & Hstep).
  destruct (associate_to_instance_link instance attribute_pk site_settings
              rel st' Hrel) as [_ ->].
  assert (link_rows st' rel attribute_pk = [link]) as ->.
  { rewrite <-Hl. unfold link_rows. by rewrite <-Hmodel, Hlinks. }
  cbn. unfold get_or_create, mbind, M_bind, get_store.
  assert (assignment_rows (tables st' (lm_model rel)) (instance_pk instance)
            (link_pk link) = [asg_row a]) as ->.
  { rewrite <-Hmodel, <-Hi, <-Hk. unfold assignment_rows. rewrite Hasg.
    destruct Hstep as [[-> Hr]|(-> & Hr & Hpk)]; [done|].
    rewrite tables_set_tables. cbn. rewrite filter_app.
    unfold assignment_rows in Hr. rewrite Hr.
    by rewrite filter_cons_True. }
  unfold mret, M_ret. destruct a as [m row]. cbn in *. by subst m.
Qed.

(** After a successful call the values of the assignment are the requested
    ones. *)
Lemma associate_value_ids instance attribute values site_settings st st' a :
  associate_attribute_values_to_instance queryset_order set_order
    instance attribute values site_settings st = (st', Return a)
  → assigned_value_ids st' a = list_to_set (av_pk <$> values).
Proof.
  intros (st1 & sorted & _ & _ & _ & ->)%associate_Return.
  unfold assigned_value_ids. rewrite tables_set_tables.
  unfold final_tables. cbn [value_assignments with_value_assignments].
  rewrite rows_of_update, <-list_fmap_compose.
  erewrite list_fmap_ext; [apply set_rows_value_ids|].
  intros i r _. cbn.
  by destruct (update_sort_order_fields (enumerate_sort_order sorted) r)
    as (_ & _ & ->).
Qed.

(** What a successful call leaves alone, and where the assignment is. *)
Lemma associate_frame instance attribute values site_settings st st' a :
  associate_attribute_values_to_instance queryset_order set_order
    instance attribute values site_settings st = (st', Return a)
  → attribute_values st' = attribute_values st
    ∧ (∀ m, links (tables st' m) = links (tables st m))
    ∧ (∀ m, m ≠ asg_model a → tables st' m = tables st m)
    ∧ (assignments (tables st' (asg_model a))
       = assignments (tables st (asg_model a))
       ∨ assignments (tables st' (asg_model a))
         = assignments (tables st (asg_model a)) ++ [asg_row a])
    ∧ asg_row a ∈ assignments (tables st' (asg_model a)).
Proof.
  intros (st1 & sorted & _ & Ha & _ & ->)%associate_Return.
  destruct (associate_to_instance_Return _ _ _ _ _ _ Ha)
    as (rel & link & _ & _ & _ & _ & _ & _ & Hstep).
  apply assignment_step_frame in Hstep
    as (Hav & Hlinks & _ & _ & Hother & Hasg & Hin).
  rewrite attribute_values_set_tables, tables_set_tables.
  split_and!; try done.
  - intros m. destruct (decide (asg_model a = m)) as [<-|Hne].
    + rewrite tables_set_tables. apply Hlinks.
    + rewrite tables_set_tables_ne by done. apply Hlinks.
  - intros m Hne. rewrite tables_set_tables_ne by done. by apply Hother.
Qed.

(** A successful call repeated on its own result, with any owned values,
    succeeds on the same assignment. *)
Lemma associate_again instance attribute values values2 site_settings st st'
    a :
  associate_attribute_values_to_instance queryset_order set_order
    instance attribute values site_settings st = (st', Return a)
  → list_to_set (av_pk <$> values2) ⊆ attribute_actual_value_ids st attribute
  → ∃ st'',
      associate_attribute_values_to_instance queryset_order set_order instance
        attribute values2 site_settings st' = (st'', Return a).
Proof.
  intros Hrun Hsub.
  pose proof (associate_frame _ _ _ _ _ _ _ Hrun) as (Hav & Hlinks & _).
  destruct (associate_Return _ _ _ _ _ _ _ Hrun)
    as (st1 & sorted & _ & Ha & _ & Hst').
  apply associate_resolved with (st1 := st').
  - unfold attribute_actual_value_ids in *. by rewrite Hav.
  - eapply associate_to_instance_reuse; [exact Ha|apply Hlinks|].
    rewrite Hst'. by rewrite tables_set_tables.
Qed.

(** The assignment a successful call returns is a row of the store: the
    one row of the instance's model family for the instance and the link
    of the attribute, and no other row has its primary key. *)
Lemma associate_stored_row instance attribute values site_settings st st' a :
  wf_store st
  → associate_attribute_values_to_instance queryset_order set_order instance
      attribute values site_settings st = (st', Return a)
  → model_of instance = Some (asg_model a)
    ∧ asg_instance_id (asg_row a) = instance_pk instance
    ∧ (∃ link, link ∈ links (tables st (asg_model a))
               ∧ link_attribute_id link = attr_pk attribute
               ∧ asg_assignment_id (asg_row a) = link_pk link)
    ∧ assignment_rows (tables st' (asg_model a)) (instance_pk instance)
        (asg_assignment_id (asg_row a)) = [asg_row a]
    ∧ (∀ row, row ∈ assignments (tables st' (asg_model a))
              → row ≠ asg_row a → asg_pk row ≠ asg_pk (asg_row a)).
Proof.
  intros Hwf Hrun.
  assert (Hwf' : wf_store st').
  { pose proof (associate_wf instance attribute values site_settings st Hwf)
      as H. by rewrite Hrun in H. }
  destruct (associate_Return _ _ _ _ _ _ _ Hrun)
    as (st1 & sorted & _ & Ha & _ & _).
  destruct (associate_to_instance_Return _ _ _ _ _ _ Ha)
    as (rel & link & _ & Hl & Hm & Hmodel & Hi & Hk & _).
  pose proof (associate_frame _ _ _ _ _ _ _ Hrun) as (_ & _ & _ & _ & Hin).
  split_and!; try done.
  - exists link.
    assert (link ∈ link_rows st rel (attr_pk attribute)) as Hlink
      by (rewrite Hl; by left).
    apply link_rows_elem in Hlink as (Hlink & _ & Hat).
    rewrite Hmodel. done.
  - rewrite <-Hi. unfold assignment_rows.
    rewrite <-(filter_unique (λ a, (asg_instance_id a, asg_assignment_id a))
                 (asg_instance_id (asg_row a), asg_assignment_id (asg_row a))
                 (assignments (tables st' (asg_model a))) (asg_row a));
      [|apply Hwf'|done|done].
    apply list_filter_iff. intros row.
    split; [by intros [-> ->]|by intros [= -> ->]].
  - intros row Hrow Hne Hpk. apply Hne.
    eapply (NoDup_fmap_elem_inj asg_pk); [apply Hwf'|done..].
Qed.

(** ** The claims *)


Lemma rows_of_value_ids_NoDup pk rows :
  NoDup ((λ r, (asv_assignment_id r, asv_value_id r)) <$> rows)
  → NoDup (asv_value_id <$> rows_of pk rows).
Proof.
  intros Hnd.
  apply (NoDup_fmap_coarser _ (λ r, (asv_assignment_id r, asv_value_id r))).
  - intros x y [Hx _]%list_elem_of_filter [Hy _]%list_elem_of_filter.
    congruence.
  - by apply NoDup_fmap_filter.
Qed.

(** The rows a successful call leaves for the assignment: the rows [set]
    left, each with its position in the sorted list. *)
Lemma associate_rows instance attribute values site_settings st st' a :
  wf_store st
  → associate_attribute_values_to_instance queryset_order set_order
      instance attribute values site_settings st = (st', Return a)
  → ∃ rows2 sorted,
      NoDup (asv_value_id <$> rows2)
      ∧ (∀ v, v ∈ asv_value_id <$> rows2 ↔ v ∈ av_pk <$> values)
      ∧ sorted ≡ₚ rows2
      ∧ Sorted le (key_of (av_pk <$> values) <$> sorted)
      ∧ Forall2 (λ r' r, ∃ j, sorted !! j = Some r
                              ∧ r' = with_sort_order r (Some j))
                (assigned_rows st' a) rows2.
Proof.
  intros Hwf Hrun.
  destruct (associate_Return _ _ _ _ _ _ _ Hrun)
    as (st1 & sorted & _ & Ha & Hs & ->).
  destruct (associate_to_instance_Return _ _ _ _ _ _ Ha)
    as (rel & link & _ & _ & _ & _ & _ & _ & Hstep).
  pose proof (assignment_step_wf _ _ _ Hwf Hstep (asg_model a)) as [].
  set (t := tables st1 (asg_model a)) in *.
  set (pk := asg_pk (asg_row a)) in *.
  set (ids := list_to_set (av_pk <$> values) : gset Z) in *.
  set (rows := set_rows set_order pk ids (value_assignments t)
                        (next_value_assignment_pk t)) in *.
  destruct (set_rows_wf pk ids (value_assignments t)
              (next_value_assignment_pk t)) as (Hu & Hp & _); [done..|].
  fold rows in Hu, Hp.
  apply sort_by_index_Some in Hs as (Hperm & Hsorted & _).
  rewrite queryset_order_perm in Hperm.
  exists (rows_of pk rows), sorted. split_and!; try done.
  - by apply rows_of_value_ids_NoDup.
  - intros v. rewrite <-(elem_of_list_to_set (C:=gset Z) v (av_pk <$> values)).
    fold ids. rewrite <-(set_rows_value_ids pk ids (value_assignments t)
                           (next_value_assignment_pk t)).
    by rewrite elem_of_list_to_set.
  - unfold assigned_rows. rewrite tables_set_tables. unfold final_tables.
    cbn [value_assignments with_value_assignments]. fold rows.
    rewrite rows_of_update. apply Forall2_fmap_l, Forall_Forall2_diag.
    apply Forall_forall. intros r [Hpk Hr]%list_elem_of_filter.
    destruct (resort_row rows pk sorted r Hp Hperm Hr) as [_ Hj]. auto.
Qed.

(** C2: after a successful call with distinct values, each row of the
    assignment carries as sort order the position of its value in the given
    sequence, and the sort orders are exactly 0 .. n-1. *)
Theorem associate_sort_order_dense instance attribute values site_settings
    st st' a :
  wf_store st
  → NoDup (av_pk <$> values)
  → associate_attribute_values_to_instance queryset_order set_order
      instance attribute values site_settings st = (st', Return a)
  → (∀ r, r ∈ assigned_rows st' a
          → sort_order r = index (asv_value_id r) (av_pk <$> values))
    ∧ sort_order <$> assigned_rows st' a ≡ₚ Some <$> seq 0 (length values).
Proof.
  intros Hwf Hnd Hrun.
  destruct (associate_rows _ _ _ _ _ _ _ Hwf Hrun)
    as (rows2 & sorted & Hnd2 & Hmem & Hperm & Hsorted & Hrows).
  set (pks := av_pk <$> values) in *.
  assert (Hvals : asv_value_id <$> rows2 ≡ₚ pks)
    by (by apply NoDup_Permutation).
  set (f := λ v : Z, default 0%nat (index v pks)).
  assert (Hf : f <$> pks = seq 0 (length values)).
  { apply (inj (fmap Some)). rewrite <-list_fmap_compose.
    replace (length values) with (length pks) by apply length_fmap.
    rewrite <-index_self by done. apply list_fmap_ext. intros i x Hx. cbn.
    unfold f. destruct (index_is_Some x pks) as [k ->]; [|done].
    by eapply list_elem_of_lookup_2. }
  assert (Hkeys : key_of pks <$> sorted = seq 0 (length values)).
  { apply (Sorted_unique le); [done|apply Sorted_le_seq|].
    rewrite <-Hf. change (key_of pks) with (f ∘ asv_value_id).
    rewrite list_fmap_compose. apply fmap_Permutation.
    etransitivity; [apply fmap_Permutation, Hperm|exact Hvals]. }
  assert (Hrow : ∀ r, r ∈ assigned_rows st' a
    → sort_order r = index (asv_value_id r) pks).
  { intros r' Hr'.
    apply list_elem_of_lookup in Hr' as [i Hi].
    destruct (Forall2_lookup_l _ _ _ _ _ Hrows Hi)
      as (r & Hr & j & Hj & ->). cbn.
    assert ((key_of pks <$> sorted) !! j = Some (key_of pks r)) as Hk
      by (by rewrite list_lookup_fmap, Hj).
    rewrite Hkeys in Hk. apply lookup_seq in Hk as [Hk _]. cbn in Hk.
    unfold key_of in Hk.
    destruct (index_is_Some (asv_value_id r) pks) as [k Hidx].
    { apply Hmem. eapply list_elem_of_fmap_2, list_elem_of_lookup_2, Hr. }
    rewrite Hidx in Hk |- *. cbn in Hk. by subst k. }
  split; [done|].
  replace (length values) with (length pks) by apply length_fmap.
  rewrite <-index_self by done.
  assert (asv_value_id <$> assigned_rows st' a = asv_value_id <$> rows2)
    as Hsame.
  { apply list_eq_Forall2, Forall2_fmap.
    eapply Forall2_impl; [exact Hrows|]. by intros r' r (j & _ & ->). }
  rewrite <-Hvals, <-Hsame, <-list_fmap_compose.
  erewrite list_fmap_ext; [done|].
  intros i r Hr. cbn. eapply Hrow, list_elem_of_lookup_2, Hr.
Qed.

(** C3: when some value of the sequence is not among the attribute's own
    values the call raises [ValueOwnershipError] and the store is the one
    it started from; the check passes exactly when the requested
    identifiers minus the owned ones are empty. *)
Theorem associate_rejects_foreign_values instance attribute values
    site_settings st v :
  v ∈ values
  → av_pk v ∉ attribute_actual_value_ids st attribute
  → associate_attribute_values_to_instance queryset_order set_order
      instance attribute
      values site_settings st = (st, Raise ValueOwnershipError)
    ∧ ∀ value_ids : gset Z,
        validate_attribute_owns_values attribute value_ids st
        = (st, if decide (value_ids ∖ attribute_actual_value_ids st attribute
                          = ∅)
               then Return tt else Raise ValueOwnershipError).
Proof.
  intros Hv Hnot. split.
  - rewrite associate_eq, decide_False; [done|].
    intros Hsub. apply Hnot, Hsub, elem_of_list_to_set.
    by apply list_elem_of_fmap_2.
  - intros value_ids. case_decide as Hd.
    + apply validate_owned. intros x Hx.
      destruct (decide (x ∈ attribute_actual_value_ids st attribute));
        [done|].
      assert (x ∈ value_ids ∖ attribute_actual_value_ids st attribute)
        as Hin by (by apply elem_of_difference).
      rewrite Hd in Hin. by apply not_elem_of_empty in Hin.
    + apply validate_not_owned. intros Hsub. apply Hd.
      apply set_eq. intros x.
      rewrite elem_of_difference. split; [|by intros ?%not_elem_of_empty].
      intros [Hx Hn]. by apply Hsub in Hx.
Qed.

(** C5, as amended: when all values are owned and the link collection of a
    supported instance has no link for the attribute, the call raises
    [LinkNotFoundError] and the store is the one it started from. *)
Theorem associate_unlinked_attribute instance attribute values site_settings
    st rel :
  (∀ v, v ∈ values → av_pk v ∈ attribute_actual_value_ids st attribute)
  → link_collection instance site_settings = Some rel
  → link_rows st rel (attr_pk attribute) = []
  → associate_attribute_values_to_instance queryset_order set_order
      instance attribute
      values site_settings st = (st, Raise LinkNotFoundError).
Proof.
  intros Howned Hrel Hnone.
  rewrite associate_eq, decide_True by (by apply owned_subseteq).
  destruct (associate_to_instance_link instance (attr_pk attribute)
              site_settings rel st Hrel) as [_ ->].
  by rewrite Hnone.
Qed.

(** C6: when a row read back for the assignment refers to a value that is
    not in the given sequence, the sort step raises
    [ValueNotInAssignmentError] and writes no sort order. *)
Theorem sort_rejects_unlisted_value instance a values st r :
  model_of instance = Some (asg_model a)
  → r ∈ assigned_rows st a
  → asv_value_id r ∉ av_pk <$> values
  → sort_assigned_attribute_values queryset_order instance a values st
    = (st, Raise ValueNotInAssignmentError).
Proof.
  intros Hm Hr Hv. rewrite sort_values_eq by done.
  rewrite (sort_by_index_None _ _ r); [done| |done].
  by rewrite queryset_order_perm.
Qed.

(** C7, as amended: when all values are owned, an instance of a class
    outside the five supported ones makes the call raise
    [UnsupportedEntityError], and the store is the one it started from. *)
Theorem associate_unsupported_instance name pk attribute values site_settings
    st :
  (∀ v, v ∈ values → av_pk v ∈ attribute_actual_value_ids st attribute)
  → associate_attribute_values_to_instance queryset_order set_order
      (IOther name pk) attribute values site_settings st
    = (st, Raise (UnsupportedEntityError name)).
Proof.
  intros Howned.
  by rewrite associate_eq, decide_True by (by apply owned_subseteq).
Qed.

(** C9, as amended: when all values are owned, a category or collection
    passed without site settings makes the call raise [AttributeError],
    which is none of the errors of the taxonomy, and the store is the one
    it started from. *)
Theorem associate_without_site_settings instance attribute values st :
  (∀ v, v ∈ values → av_pk v ∈ attribute_actual_value_ids st attribute)
  → model_of instance = Some Category ∨ model_of instance = Some Collection
  → associate_attribute_values_to_instance queryset_order set_order
      instance attribute values None st = (st, Raise AttributeError)
    ∧ AttributeError ≠ LinkNotFoundError
    ∧ (∀ name, AttributeError ≠ UnsupportedEntityError name)
    ∧ AttributeError ≠ ValueOwnershipError
    ∧ AttributeError ≠ ValueNotInAssignmentError.
Proof.
  intros Howned Hm. split; [|done].
  rewrite associate_eq, decide_True by (by apply owned_subseteq).
  by rewrite associate_to_instance_no_context.
Qed.

(** C4: a call repeated on its own result has the same outcome and leaves
    the store as the first call left it; the store keeps at most one
    assignment row for each instance and link, and after a success the
    instance and link of the returned assignment select that one row. *)
Theorem associate_idempotent instance attribute values site_settings st st'
    r :
  wf_store st
  → associate_attribute_values_to_instance queryset_order set_order
      instance attribute values site_settings st = (st', r)
  → associate_attribute_values_to_instance queryset_order set_order
      instance attribute values site_settings st' = (st', r)
    ∧ (∀ m, NoDup ((λ a, (asg_instance_id a, asg_assignment_id a))
                     <$> assignments (tables st' m)))
    ∧ ∀ a, r = Return a
           → asg_instance_id (asg_row a) = instance_pk instance
             ∧ assignment_rows (tables st' (asg_model a))
                 (instance_pk instance) (asg_assignment_id (asg_row a))
               = [asg_row a].
Proof.
  intros Hwf Hrun.
  assert (Hwf' : wf_store st').
  { pose proof (associate_wf instance attribute values site_settings st Hwf)
      as H. by rewrite Hrun in H. }
  split_and!; [|intros m; apply Hwf'|].
  - destruct r as [a|e].
    2: { apply associate_Raise in Hrun as Heq. by subst st'. }
    destruct (associate_Return _ _ _ _ _ _ _ Hrun)
      as (st1 & sorted & Hsub & Ha & _ & Hst').
    pose proof (associate_frame _ _ _ _ _ _ _ Hrun) as (_ & Hlinks & _).
    assert (Ha' : _associate_attribute_to_instance instance
                    (attr_pk attribute) site_settings st' = (st', Return a)).
    { eapply associate_to_instance_reuse; [exact Ha|apply Hlinks|].
      rewrite Hst'. by rewrite tables_set_tables. }
    destruct (associate_again _ _ _ values _ _ _ _ Hrun Hsub)
      as [st'' Hrun2].
    rewrite Hrun2. f_equal.
    destruct (associate_Return _ _ _ _ _ _ _ Hrun2)
      as (st1' & sorted' & _ & Ha2 & Hs' & ->).
    rewrite Ha' in Ha2. injection Ha2 as <-.
    pose proof (associate_value_ids _ _ _ _ _ _ _ Hrun) as Hids.
    unfold assigned_value_ids in Hids.
    set (t := tables st' (asg_model a)) in *.
    set (pk := asg_pk (asg_row a)) in *.
    set (ids := list_to_set (av_pk <$> values) : gset Z) in *.
    destruct (set_rows_noop pk ids (value_assignments t)
                (next_value_assignment_pk t) Hids) as [Hrows Hnone].
    rewrite Hrows in Hs'. unfold final_tables. rewrite Hrows, Hnone.
    cbn [length]. rewrite Z.add_0_r.
    enough (update_sort_order (enumerate_sort_order sorted')
              <$> value_assignments t = value_assignments t) as ->
      by (by rewrite with_value_assignments_id, set_tables_id).
    destruct (associate_rows _ _ _ _ _ _ _ Hwf Hrun)
      as (rows2 & sorted0 & Hnd2 & Hmem & Hperm & Hsorted & Hrel).
    apply sort_by_index_Some in Hs' as (Hperm' & Hsorted' & Hin').
    rewrite queryset_order_perm in Hperm'.
    change (rows_of pk (value_assignments t)) with (assigned_rows st' a)
      in Hperm'.
    assert (Hsame : asv_value_id <$> assigned_rows st' a
                    = asv_value_id <$> rows2).
    { apply list_eq_Forall2, Forall2_fmap.
      eapply Forall2_impl; [exact Hrel|]. by intros r' r0 (j & _ & ->). }
    assert (Hlists : asv_value_id <$> sorted0 = asv_value_id <$> sorted').
    { apply (sorted_value_ids_unique (av_pk <$> values)); try done.
      - by rewrite Hperm, Hperm', Hsame.
      - intros r0 Hr0. apply Hmem. rewrite <-Hperm.
        by apply list_elem_of_fmap_2. }
    rewrite <-(list_fmap_id (value_assignments t)) at 2.
    apply list_fmap_ext. intros i r' Hi. unfold id.
    apply list_elem_of_lookup_2 in Hi.
    destruct (resort_row (value_assignments t) pk sorted' r'
                (wf_value_pk _ (Hwf' _)) Hperm' Hi) as [Hother Hmine].
    destruct (decide (asv_assignment_id r' = pk)) as [Hpk|Hpk]; [|auto].
    destruct (Hmine Hpk) as (j' & Hj' & ->).
    assert (r' ∈ assigned_rows st' a) as [k Hk]%list_elem_of_lookup
      by (by apply list_elem_of_filter).
    destruct (Forall2_lookup_l _ _ _ _ _ Hrel Hk)
      as (r0 & Hr0 & j & Hj & ->).
    assert (j = j') as <-; [|done].
    eapply (NoDup_lookup (asv_value_id <$> sorted0)).
    + rewrite Hperm. exact Hnd2.
    + by rewrite list_lookup_fmap, Hj.
    + by rewrite Hlists, list_lookup_fmap, Hj'.
  - intros a ->.
    destruct (associate_Return _ _ _ _ _ _ _ Hrun)
      as (st1 & sorted & _ & Ha & _ & _).
    destruct (associate_to_instance_Return _ _ _ _ _ _ Ha)
      as (rel & link & _ & _ & _ & _ & Hi & _ & _).
    split; [done|].
    pose proof (associate_frame _ _ _ _ _ _ _ Hrun) as (_ & _ & _ & _ & Hin).
    rewrite <-Hi. unfold assignment_rows.
    rewrite <-(filter_unique (λ a, (asg_instance_id a, asg_assignment_id a))
                 (asg_instance_id (asg_row a), asg_assignment_id (asg_row a))
                 (assignments (tables st' (asg_model a))) (asg_row a));
      [|apply Hwf'|done|done].
    apply list_filter_iff. intros row.
    split; [by intros [-> ->]|by intros [= -> ->]].
Qed.

(** C8: the assignment a successful call returns is the row the store
    holds for the instance and a link of the attribute, in the instance's
    own model family.  The call leaves the attribute's own values, every
    link, the tables of the other model families, every other assignment
    row and the through rows of every other stored assignment as they
    were; the one assignment row it may add is the returned one. *)
Theorem associate_frame_effect instance attribute values site_settings st st'
    a :
  wf_store st
  → associate_attribute_values_to_instance queryset_order set_order
      instance attribute values site_settings st = (st', Return a)
  → attribute_values st' = attribute_values st
    ∧ (∀ m, links (tables st' m) = links (tables st m))
    ∧ (∀ m, m ≠ asg_model a → tables st' m = tables st m)
    ∧ (∀ row, row ≠ asg_row a
              → row ∈ assignments (tables st' (asg_model a))
                ↔ row ∈ assignments (tables st (asg_model a)))
    ∧ asg_instance_id (asg_row a) = instance_pk instance
    ∧ (∀ pk, pk ≠ asg_pk (asg_row a)
             → rows_of pk (value_assignments (tables st' (asg_model a)))
               = rows_of pk (value_assignments (tables st (asg_model a))))
    ∧ model_of instance = Some (asg_model a)
    ∧ asg_row a ∈ assignments (tables st' (asg_model a))
    ∧ (∃ link, link ∈ links (tables st (asg_model a))
               ∧ link_attribute_id link = attr_pk attribute
               ∧ asg_assignment_id (asg_row a) = link_pk link)
    ∧ assignment_rows (tables st' (asg_model a)) (instance_pk instance)
        (asg_assignment_id (asg_row a)) = [asg_row a]
    ∧ (∀ row, row ∈ assignments (tables st' (asg_model a))
              → row ≠ asg_row a
              → rows_of (asg_pk row)
                  (value_assignments (tables st' (asg_model a)))
                = rows_of (asg_pk row)
                    (value_assignments (tables st (asg_model a)))).
Proof.
  intros Hwf Hrun.
  pose proof (associate_frame _ _ _ _ _ _ _ Hrun)
    as (Hav & Hlinks & Hother & Hasg & Hin).
  destruct (associate_stored_row _ _ _ _ _ _ _ Hwf Hrun)
    as (Hm & Hi & Hlink & Hstored & Hpks).
  assert (Hbypk : ∀ pk, pk ≠ asg_pk (asg_row a)
    → rows_of pk (value_assignments (tables st' (asg_model a)))
      = rows_of pk (value_assignments (tables st (asg_model a)))).
  { clear Hstored Hpks Hlink.
    intros pk' Hne.
      destruct (associate_Return _ _ _ _ _ _ _ Hrun)
        as (st1 & sorted & _ & Ha & Hs & ->).
      destruct (associate_to_instance_Return _ _ _ _ _ _ Ha)
        as (rel & link & _ & _ & _ & _ & _ & _ & Hstep).
      pose proof (assignment_step_wf _ _ _ Hwf Hstep (asg_model a)) as [].
      apply assignment_step_frame in Hstep as (_ & _ & Hrows & _).
      rewrite tables_set_tables, <-Hrows. unfold final_tables.
      cbn [value_assignments with_value_assignments].
      set (t := tables st1 (asg_model a)) in *.
      set (pk := asg_pk (asg_row a)) in *.
      set (ids := list_to_set (av_pk <$> values) : gset Z) in *.
      destruct (set_rows_wf pk ids (value_assignments t)
                  (next_value_assignment_pk t)) as (_ & Hp & _); [done..|].
      apply sort_by_index_Some in Hs as (Hperm & _ & _).
      rewrite queryset_order_perm in Hperm.
      rewrite rows_of_update.
      rewrite <-(rows_of_set_rows_ne pk pk' ids (value_assignments t)
                   (next_value_assignment_pk t)) by done.
      set (rows2 := set_rows set_order pk ids (value_assignments t)
                             (next_value_assignment_pk t)) in *.
      rewrite <-(list_fmap_id (rows_of pk' rows2)) at 2.
      apply list_fmap_ext. intros i r Hr. unfold id.
      apply list_elem_of_lookup_2, list_elem_of_filter in Hr as [Hpk Hr].
      destruct (resort_row rows2 pk sorted r Hp Hperm Hr) as [Hsame _].
      apply Hsame. congruence. }
  split_and!; try done.
  - intros row Hne. destruct Hasg as [->| ->]; [done|].
    rewrite elem_of_app, list_elem_of_singleton. naive_solver.
  - intros row Hrow Hne. apply Hbypk. by apply Hpks.
Qed.


(** ** Further properties of the functions *)

(** The exceptions [_associate_attribute_to_instance] can raise. *)
Lemma associate_to_instance_Raise_kinds instance attribute_pk site_settings
    st st1 e :
  _associate_attribute_to_instance instance attribute_pk site_settings st
  = (st1, Raise e)
  → e = DoesNotExist ∨ e = MultipleObjectsReturned ∨ e = AttributeError
    ∨ ∃ name, e = UnsupportedEntityError name.
Proof.
  intros Hrun.
  destruct (link_collection instance site_settings) as [rel|] eqn:Hrel.
  - destruct (associate_to_instance_link instance attribute_pk site_settings
                rel st Hrel) as [_ Heq].
    rewrite Heq in Hrun. clear Heq.
    destruct (link_rows st rel attribute_pk) as [|link [|link' rows]];
      cbn in Hrun; [simplify_eq; auto| |simplify_eq; auto].
    unfold get_or_create, mbind, M_bind, get_store in Hrun.
    destruct (assignment_rows _ _ _) as [|row [|row' rows]];
      unfold put_store, mret, M_ret, raise in Hrun; simplify_eq; auto.
  - destruct instance as [pk ty|pk ty|pk ty|pk|pk|name pk];
      try destruct site_settings as [settings|]; cbn in Hrel; try done;
      first [ rewrite associate_to_instance_no_context in Hrun
                by (cbn; auto)
            | rewrite associate_to_instance_unsupported in Hrun ];
      simplify_eq; eauto.
Qed.

(** X1: for an instance whose class is one of the five models itself, or
    which is an instance of none of them, a call that raises, whatever the
    exception, leaves the store as it found it.  (An instance of a subclass
    of a model is outside this statement: for it the source writes the
    assignment and its values and then fails in the sort step.) *)
Theorem associate_failure_writes_nothing instance attribute values
    site_settings st st' e :
  exact_class instance
  → associate_attribute_values_to_instance queryset_order set_order instance
      attribute values site_settings st = (st', Raise e)
  → st' = st.
Proof. intros Hclass Hrun. by eapply associate_Raise. Qed.

(** X2: for an instance whose class is one of the five models itself, or
    which is an instance of none of them, the exceptions a call can raise
    are the ownership error, the two lookup errors [DoesNotExist] and
    [MultipleObjectsReturned], the [AttributeError] of missing site
    settings and the unsupported-class error; the [ValueError] and
    [KeyError] of the sort step do not come out of such a call.  (For an
    instance of a subclass of a model the sort step of the source does
    raise [KeyError]; such instances are outside this statement.) *)
Theorem associate_failure_kinds instance attribute values site_settings st
    st' e :
  exact_class instance
  → associate_attribute_values_to_instance queryset_order set_order instance
      attribute values site_settings st = (st', Raise e)
  → (e = ValueOwnershipError ∨ e = DoesNotExist
     ∨ e = MultipleObjectsReturned ∨ e = AttributeError
     ∨ ∃ name, e = UnsupportedEntityError name)
    ∧ e ≠ ValueError ∧ ∀ key, e ≠ KeyError key.
Proof.
  intros Hclass Hrun.
  assert (e = ValueOwnershipError ∨ e = DoesNotExist
          ∨ e = MultipleObjectsReturned ∨ e = AttributeError
          ∨ ∃ name, e = UnsupportedEntityError name) as Hkinds.
  { rewrite associate_eq in Hrun. case_decide as Hsub.
    - destruct (_associate_attribute_to_instance _ _ _ _)
        as [st1 [a|e']] eqn:Ha.
      + destruct (associate_to_instance_Return _ _ _ _ _ _ Ha)
          as (rel & link & _ & _ & Hm & _).
        destruct (associate_tail instance a values st1 Hm)
          as (st2 & sorted & Hset & _ & Hs & Hsort).
        by rewrite Hset, Hsort in Hrun.
      + injection Hrun as _ <-.
        apply associate_to_instance_Raise_kinds in Ha. tauto.
    - injection Hrun as _ <-. by left. }
  split; [done|].
  destruct Hkinds as [->|[->|[->|[->|[name ->]]]]]; done.
Qed.

(** X3: over a store that satisfies the schema constraints a call never
    raises [MultipleObjectsReturned]. *)
Theorem associate_lookups_unambiguous instance attribute values site_settings
    st st' :
  wf_store st
  → associate_attribute_values_to_instance queryset_order set_order instance
      attribute values site_settings st
    ≠ (st', Raise MultipleObjectsReturned).
Proof.
  intros Hwf Hrun. rewrite associate_eq in Hrun.
  case_decide as Hsub; [|done].
  destruct (_associate_attribute_to_instance _ _ _ _) as [st1 [a|e']] eqn:Ha.
  - destruct (associate_to_instance_Return _ _ _ _ _ _ Ha)
      as (rel & link & _ & _ & Hm & _).
    destruct (associate_tail instance a values st1 Hm)
      as (st2 & sorted & Hset & _ & Hs & Hsort).
    by rewrite Hset, Hsort in Hrun.
  - injection Hrun as _ ->.
    destruct (link_collection instance site_settings) as [rel|] eqn:Hrel.
    + destruct (associate_to_instance_link instance (attr_pk attribute)
                  site_settings rel st Hrel) as [_ Heq].
      rewrite Heq in Ha. clear Heq.
      destruct (link_rows st rel (attr_pk attribute))
        as [|link [|link' rows]] eqn:Hl; cbn in Ha; [done| |].
      * destruct (get_or_create_cases (lm_model rel) (instance_pk instance)
                    link st (Hwf _)) as [(row & _ & Hg)|[_ Hg]];
          rewrite Hg in Ha; done.
      * assert (link' ∈ link_rows st rel (attr_pk attribute)) as Hin
          by (rewrite Hl; right; left).
        apply link_rows_elem in Hin as (Hin & Ho & Hat).
        rewrite (link_rows_unique st rel (attr_pk attribute) link')
          in Hl by done. done.
    + destruct instance as [pk ty|pk ty|pk ty|pk|pk|name pk];
        try destruct site_settings as [settings|]; cbn in Hrel; try done;
        first [ rewrite associate_to_instance_no_context in Ha
                  by (cbn; auto)
              | rewrite associate_to_instance_unsupported in Ha ];
        done.
Qed.

(** X4: every call, whatever its outcome, leaves a store that satisfies the
    schema constraints when it started from one. *)
Theorem associate_keeps_schema_constraints instance attribute values
    site_settings st :
  wf_store st
  → wf_store (associate_attribute_values_to_instance queryset_order set_order
                instance attribute values site_settings st).1.
Proof. apply associate_wf. Qed.

(** X6: called with an object whose class is neither Category nor
    Collection, the helper for those two raises [KeyError] on the class
    name, before it looks at the site settings. *)
Theorem category_or_collection_helper_other_class instance attribute_pk
    site_settings st :
  class_name instance ≠ "Category"
  → class_name instance ≠ "Collection"
  → _get_associate_category_or_collection_attribute instance attribute_pk
      site_settings st
    = (st, Raise (KeyError (class_name instance))).
Proof.
  intros H1 H2. unfold _get_associate_category_or_collection_attribute,
    instance_to_assignment_mapping.
  by rewrite !decide_False by done.
Qed.

(** X7: called with an object whose class is none of the five, the sort
    step raises [KeyError] on the class name and reads no row. *)
Theorem sort_unknown_class instance a values st :
  class_name instance
    ∉ ["Product"; "ProductVariant"; "Page"; "Category"; "Collection"]
  → sort_assigned_attribute_values queryset_order instance a values st
    = (st, Raise (KeyError (class_name instance))).
Proof.
  intros Hnot. unfold sort_assigned_attribute_values,
    instance_to_value_assignment_mapping.
  rewrite !decide_False; [done|..];
    intros Heq; apply Hnot; rewrite Heq; by apply (bool_decide_unpack _).
Qed.

(** X8: a successful [_associate_attribute_to_instance] returns an
    assignment of the instance's own model family, keyed by the instance
    and by a link of the attribute; it writes nothing when the row was
    there, appends exactly that row otherwise, and never touches the
    attribute values, the links, the through rows or another family. *)
Theorem associate_to_instance_effect instance attribute_pk site_settings st
    st1 a :
  _associate_attribute_to_instance instance attribute_pk site_settings st
  = (st1, Return a)
  → model_of instance = Some (asg_model a)
    ∧ asg_instance_id (asg_row a) = instance_pk instance
    ∧ (∃ link, link ∈ links (tables st (asg_model a))
               ∧ link_attribute_id link = attribute_pk
               ∧ asg_assignment_id (asg_row a) = link_pk link)
    ∧ attribute_values st1 = attribute_values st
    ∧ (∀ m, links (tables st1 m) = links (tables st m))
    ∧ (∀ m, value_assignments (tables st1 m)
            = value_assignments (tables st m))
    ∧ (∀ m, m ≠ asg_model a → tables st1 m = tables st m)
    ∧ asg_row a ∈ assignments (tables st1 (asg_model a))
    ∧ (asg_row a ∈ assignments (tables st (asg_model a)) → st1 = st)
    ∧ (asg_row a ∉ assignments (tables st (asg_model a))
       → assignments (tables st1 (asg_model a))
         = assignments (tables st (asg_model a)) ++ [asg_row a]).
Proof.
  intros Ha.
  destruct (associate_to_instance_Return _ _ _ _ _ _ Ha)
    as (rel & link & _ & Hl & Hm & Hmodel & Hi & Hk & Hstep).
  pose proof (assignment_step_frame _ _ _ Hstep)
    as (Hav & Hlinks & Hvals & _ & Hother & _ & Hin).
  split_and!; try done.
  - exists link.
    assert (link ∈ link_rows st rel attribute_pk) as Hlink
      by (rewrite Hl; by left).
    apply link_rows_elem in Hlink as (Hlink & _ & Hat).
    rewrite Hmodel. done.
  - intros Hold. destruct Hstep as [[-> _]|(_ & Hnone & _)]; [done|].
    assert (asg_row a ∈ assignment_rows (tables st (asg_model a))
              (asg_instance_id (asg_row a)) (asg_assignment_id (asg_row a)))
      as Hr by (by apply assignment_rows_elem).
    rewrite Hnone in Hr. by apply elem_of_nil in Hr.
  - intros Hnew. destruct Hstep as [[-> Hone]|(-> & _ & _)].
    + exfalso. apply Hnew.
      assert (asg_row a ∈ assignment_rows (tables st (asg_model a))
                (asg_instance_id (asg_row a))
                (asg_assignment_id (asg_row a))) as Hr
        by (rewrite Hone; by left).
      by apply assignment_rows_elem in Hr as (? & _).
    + by rewrite tables_set_tables.
Qed.

(** Positions in a sorted list follow the keys. *)
Lemma Sorted_le_lookup (l : list nat) i j x y :
  Sorted le l → l !! i = Some x → l !! j = Some y → (i ≤ j)%nat
  → (x ≤ y)%nat.
Proof.
  intros Hs%Sorted_StronglySorted; [|apply _].
  revert i j. induction Hs as [|z l Hs IH Hall]; intros i j Hi Hj Hij;
    [done|].
  destruct i as [|i], j as [|j]; cbn in *; simplify_eq; [done| |lia|].
  - rewrite Forall_forall in Hall.
    by eapply Hall, list_elem_of_lookup_2.
  - eapply IH; [done..|lia].
Qed.

(** The rows of an assignment after the batched update, against the rows
    before it. *)
Lemma resorted_rows rows pk sorted :
  NoDup (asv_pk <$> rows) → sorted ≡ₚ rows_of pk rows
  → Forall2 (λ r' r, ∃ j, sorted !! j = Some r
                          ∧ r' = with_sort_order r (Some j))
            (rows_of pk (update_sort_order (enumerate_sort_order sorted)
                           <$> rows))
            (rows_of pk rows).
Proof.
  intros Hp Hperm. rewrite rows_of_update.
  apply Forall2_fmap_l, Forall_Forall2_diag, Forall_forall.
  intros r [Hpk Hr]%list_elem_of_filter.
  destruct (resort_row rows pk sorted r Hp Hperm Hr) as [_ Hj]. auto.
Qed.

(** Rows that took their positions in a rearrangement of themselves carry
    the sort orders 0 .. n-1, each once. *)
Lemma positions_dense (sorted rows rows' : list AssignedValue) :
  NoDup rows → sorted ≡ₚ rows
  → Forall2 (λ r' r, ∃ j, sorted !! j = Some r
                          ∧ r' = with_sort_order r (Some j)) rows' rows
  → sort_order <$> rows' ≡ₚ Some <$> seq 0 (length rows).
Proof.
  intros Hnd Hperm Hrel.
  apply submseteq_length_Permutation.
  - apply NoDup_submseteq.
    + apply NoDup_alt. intros i1 i2 o.
      rewrite !list_lookup_fmap.
      destruct (rows' !! i1) as [r1'|] eqn:H1; [|done].
      destruct (rows' !! i2) as [r2'|] eqn:H2; [|done]. cbn.
      intros [= <-] [= Heq].
      destruct (Forall2_lookup_l _ _ _ _ _ Hrel H1)
        as (r1 & Hr1 & j1 & Hj1 & ->).
      destruct (Forall2_lookup_l _ _ _ _ _ Hrel H2)
        as (r2 & Hr2 & j2 & Hj2 & ->).
      cbn in Heq. injection Heq as ->.
      rewrite Hj1 in Hj2. injection Hj2 as ->.
      by eapply NoDup_lookup.
    + intros o (r' & -> & [i Hi]%list_elem_of_lookup)%list_elem_of_fmap.
      destruct (Forall2_lookup_l _ _ _ _ _ Hrel Hi)
        as (r & Hr & j & Hj & ->). cbn.
      apply list_elem_of_fmap_2, elem_of_seq. split; [lia|].
      apply lookup_lt_Some in Hj. rewrite Hperm in Hj. lia.
  - rewrite !length_fmap, length_seq.
    by rewrite (Forall2_length _ _ _ Hrel).
Qed.

(** Of two such rows, the one whose value comes first in [pks] has the
    smaller sort order. *)
Lemma positions_monotone pks (sorted rows rows' : list AssignedValue) r1 r2
    k1 k2 i1 i2 :
  Sorted le (key_of pks <$> sorted)
  → Forall2 (λ r' r, ∃ j, sorted !! j = Some r
                          ∧ r' = with_sort_order r (Some j)) rows' rows
  → r1 ∈ rows' → r2 ∈ rows'
  → index (asv_value_id r1) pks = Some k1
  → index (asv_value_id r2) pks = Some k2
  → sort_order r1 = Some i1 → sort_order r2 = Some i2
  → (k1 < k2)%nat → (i1 < i2)%nat.
Proof.
  intros Hs Hrel [n1 H1]%list_elem_of_lookup [n2 H2]%list_elem_of_lookup
    Hk1 Hk2 Ho1 Ho2 Hlt.
  destruct (Forall2_lookup_l _ _ _ _ _ Hrel H1)
    as (r1' & _ & j1 & Hj1 & ->).
  destruct (Forall2_lookup_l _ _ _ _ _ Hrel H2)
    as (r2' & _ & j2 & Hj2 & ->).
  cbn in *. simplify_eq.
  destruct (decide (i1 < i2)%nat) as [|Hge]; [done|]. exfalso.
  assert ((key_of pks <$> sorted) !! i2 = Some k2) as Hx
    by (rewrite list_lookup_fmap, Hj2; cbn; unfold key_of; by rewrite Hk2).
  assert ((key_of pks <$> sorted) !! i1 = Some k1) as Hy
    by (rewrite list_lookup_fmap, Hj1; cbn; unfold key_of; by rewrite Hk1).
  pose proof (Sorted_le_lookup _ _ _ _ _ Hs Hx Hy). lia.
Qed.

(** X9: called on its own with primary keys unique and every row's value
    listed in [values] (which may list more, or repeat), the sort step
    succeeds, keeps the values of the assignment's rows, gives them the
    sort orders 0 .. n-1, each once, and orders them as their values first
    occur in [values]. *)
Theorem sort_values_ranks instance a values st :
  model_of instance = Some (asg_model a)
  → NoDup (asv_pk <$> value_assignments (tables st (asg_model a)))
  → (∀ r, r ∈ assigned_rows st a → asv_value_id r ∈ av_pk <$> values)
  → ∃ st',
      sort_assigned_attribute_values queryset_order instance a values st
      = (st', Return tt)
      ∧ asv_value_id <$> assigned_rows st' a
        = asv_value_id <$> assigned_rows st a
      ∧ sort_order <$> assigned_rows st' a
        ≡ₚ Some <$> seq 0 (length (assigned_rows st a))
      ∧ ∀ r1 r2 k1 k2 i1 i2,
          r1 ∈ assigned_rows st' a → r2 ∈ assigned_rows st' a
          → index (asv_value_id r1) (av_pk <$> values) = Some k1
          → index (asv_value_id r2) (av_pk <$> values) = Some k2
          → sort_order r1 = Some i1 → sort_order r2 = Some i2
          → (k1 < k2)%nat → (i1 < i2)%nat.
Proof.
  intros Hm Hpk Hlisted.
  destruct (sort_by_index_is_Some (av_pk <$> values)
              (queryset_order (assigned_rows st a))) as [sorted Hs].
  { intros r. rewrite queryset_order_perm. apply Hlisted. }
  rewrite sort_values_eq, Hs by done. eexists. split; [done|].
  apply sort_by_index_Some in Hs as (Hperm & Hsorted & _).
  rewrite queryset_order_perm in Hperm.
  pose proof (resorted_rows _ _ _ Hpk Hperm) as Hrel.
  set (st' := set_tables _ _ _).
  assert (assigned_rows st' a
          = rows_of (asg_pk (asg_row a))
              (update_sort_order (enumerate_sort_order sorted)
                 <$> value_assignments (tables st (asg_model a)))) as ->
    by (unfold assigned_rows, st'; by rewrite tables_set_tables).
  fold (assigned_rows st a) in Hrel |- *.
  split_and!.
  - apply list_eq_Forall2, Forall2_fmap.
    eapply Forall2_impl; [exact Hrel|]. by intros r' r (j & _ & ->).
  - eapply positions_dense; [|exact Hperm|exact Hrel].
    eapply NoDup_fmap_1, (NoDup_fmap_filter asv_pk), Hpk.
  - intros r1 r2 k1 k2 i1 i2.
    by apply (positions_monotone _ _ _ _ _ _ _ _ _ _ Hsorted Hrel).
Qed.

(** X10: with primary keys unique, the sort step adds and removes no row:
    it leaves attribute values, links, assignment rows, the other model
    families, the key sequences and the through rows of every other
    assignment as they were, and in the through table changes nothing but
    sort orders. *)
Theorem sort_values_frame instance a values st st' r :
  model_of instance = Some (asg_model a)
  → NoDup (asv_pk <$> value_assignments (tables st (asg_model a)))
  → sort_assigned_attribute_values queryset_order instance a values st
    = (st', r)
  → attribute_values st' = attribute_values st
    ∧ (∀ m, links (tables st' m) = links (tables st m))
    ∧ (∀ m, assignments (tables st' m) = assignments (tables st m))
    ∧ (∀ m, next_assignment_pk (tables st' m)
            = next_assignment_pk (tables st m))
    ∧ (∀ m, next_value_assignment_pk (tables st' m)
            = next_value_assignment_pk (tables st m))
    ∧ (∀ m, m ≠ asg_model a → tables st' m = tables st m)
    ∧ (λ r, with_sort_order r None)
        <$> value_assignments (tables st' (asg_model a))
      = (λ r, with_sort_order r None)
          <$> value_assignments (tables st (asg_model a))
    ∧ (∀ pk, pk ≠ asg_pk (asg_row a)
             → rows_of pk (value_assignments (tables st' (asg_model a)))
               = rows_of pk (value_assignments (tables st (asg_model a)))).
Proof.
  intros Hm Hpk. rewrite sort_values_eq by done.
  destruct (sort_by_index _ _) as [sorted|] eqn:Hs;
    intros [= <- <-]; [|done].
  apply sort_by_index_Some in Hs as (Hperm & _ & _).
  rewrite queryset_order_perm in Hperm.
  rewrite attribute_values_set_tables, tables_set_tables.
  cbn [value_assignments with_value_assignments].
  split_and!; try done.
  - intros m. destruct (decide (asg_model a = m)) as [<-|Hne];
      [by rewrite tables_set_tables|by rewrite tables_set_tables_ne].
  - intros m. destruct (decide (asg_model a = m)) as [<-|Hne];
      [by rewrite tables_set_tables|by rewrite tables_set_tables_ne].
  - intros m. destruct (decide (asg_model a = m)) as [<-|Hne];
      [by rewrite tables_set_tables|by rewrite tables_set_tables_ne].
  - intros m. destruct (decide (asg_model a = m)) as [<-|Hne];
      [by rewrite tables_set_tables|by rewrite tables_set_tables_ne].
  - intros m Hne. by rewrite tables_set_tables_ne.
  - rewrite <-list_fmap_compose. apply list_fmap_ext. intros i r0 _. cbn.
    unfold with_sort_order.
    by destruct (update_sort_order_fields (enumerate_sort_order sorted) r0)
      as (-> & -> & ->).
  - intros pk Hne. rewrite rows_of_update.
    rewrite <-(list_fmap_id (rows_of pk _)) at 2.
    apply list_fmap_ext. intros i r0 Hr0. unfold id.
    apply list_elem_of_lookup_2, list_elem_of_filter in Hr0 as [Hk Hr0].
    destruct (resort_row _ (asg_pk (asg_row a)) sorted r0 Hpk Hperm Hr0)
      as [Hsame _].
    apply Hsame. congruence.
Qed.

(** X11: after any successful call over a store that satisfies the schema
    constraints, also with repeated values, the rows of the assignment
    carry the sort orders 0 .. m-1, each once, where m is the number of
    distinct values, and are ordered as their values first occur in the
    sequence. *)
Theorem associate_sort_order_ranks instance attribute values site_settings st
    st' a :
  wf_store st
  → associate_attribute_values_to_instance queryset_order set_order instance
      attribute values site_settings st = (st', Return a)
  → sort_order <$> assigned_rows st' a
    ≡ₚ Some <$> seq 0 (base.size (list_to_set (av_pk <$> values) : gset Z))
    ∧ ∀ r1 r2 k1 k2 i1 i2,
        r1 ∈ assigned_rows st' a → r2 ∈ assigned_rows st' a
        → index (asv_value_id r1) (av_pk <$> values) = Some k1
        → index (asv_value_id r2) (av_pk <$> values) = Some k2
        → sort_order r1 = Some i1 → sort_order r2 = Some i2
        → (k1 < k2)%nat → (i1 < i2)%nat.
Proof.
  intros Hwf Hrun.
  destruct (associate_rows _ _ _ _ _ _ _ Hwf Hrun)
    as (rows2 & sorted & Hnd2 & Hmem & Hperm & Hsorted & Hrel).
  split.
  - assert (base.size (list_to_set (av_pk <$> values) : gset Z) = length rows2)
      as ->.
    { rewrite <-(length_fmap asv_value_id rows2),
        <-(size_list_to_set (C:=gset Z)) by done.
      f_equal. apply set_eq. intros v.
      rewrite !elem_of_list_to_set. symmetry. apply Hmem. }
    eapply positions_dense; [|exact Hperm|exact Hrel].
    by eapply NoDup_fmap_1.
  - intros r1 r2 k1 k2 i1 i2.
    by apply (positions_monotone _ _ _ _ _ _ _ _ _ _ Hsorted Hrel).
Qed.

(** X12: a successful call over a store that satisfies the schema
    constraints keeps the through row (same primary key) of every value
    that was associated and is requested again, deletes the through row of
    every value that is not requested, and gives every other row of the
    assignment a primary key from the sequence. *)
Theorem associate_keeps_rows_of_kept_values instance attribute values
    site_settings st st' a :
  wf_store st
  → associate_attribute_values_to_instance queryset_order set_order instance
      attribute values site_settings st = (st', Return a)
  → (∀ r, r ∈ assigned_rows st a → asv_value_id r ∈ av_pk <$> values
          → ∃ r', r' ∈ assigned_rows st' a ∧ asv_pk r' = asv_pk r
                  ∧ asv_value_id r' = asv_value_id r)
    ∧ (∀ r, r ∈ assigned_rows st a → asv_value_id r ∉ av_pk <$> values
            → asv_pk r
              ∉ asv_pk <$> value_assignments (tables st' (asg_model a)))
    ∧ (∀ r', r' ∈ assigned_rows st' a
             → (∃ r, r ∈ assigned_rows st a ∧ asv_pk r = asv_pk r'
                     ∧ asv_value_id r = asv_value_id r')
               ∨ (next_value_assignment_pk (tables st (asg_model a))
                  ≤ asv_pk r')%Z).
Proof.
  intros Hwf Hrun.
  destruct (associate_Return _ _ _ _ _ _ _ Hrun)
    as (st1 & sorted & _ & Ha & _ & ->).
  destruct (associate_to_instance_Return _ _ _ _ _ _ Ha)
    as (rel & link & _ & _ & _ & _ & _ & _ & Hstep).
  apply assignment_step_frame in Hstep as (_ & _ & Hrows & Hnext & _).
  destruct (Hwf (asg_model a)) as [_ _ _ _ _ Hpk Hseq].
  unfold assigned_rows. rewrite tables_set_tables. unfold final_tables.
  cbn [value_assignments with_value_assignments].
  rewrite Hrows, Hnext.
  set (rows := value_assignments (tables st (asg_model a))) in *.
  set (next := next_value_assignment_pk (tables st (asg_model a))) in *.
  set (pk := asg_pk (asg_row a)) in *.
  set (ids := list_to_set (av_pk <$> values) : gset Z).
  set (objs := enumerate_sort_order sorted).
  rewrite rows_of_update, rows_of_set_rows.
  split_and!.
  - intros r Hr Hv. exists (update_sort_order objs r).
    destruct (update_sort_order_fields objs r) as (Hf1 & _ & Hf3).
    split_and!; [|done..].
    apply list_elem_of_fmap_2, elem_of_app. left.
    apply list_elem_of_filter. split; [|done].
    by apply elem_of_list_to_set.
  - intros r [Hk Hr]%list_elem_of_filter Hv.
    intros (r' & Heq & Hr')%list_elem_of_fmap.
    apply update_sort_order_elem in Hr' as (r0 & Hr0 & _ & Hp0 & _).
    unfold set_rows in Hr0.
    apply elem_of_app in Hr0 as [[Hkeep Hr0]%list_elem_of_filter|Hr0].
    + assert (r0 = r) as ->
        by (eapply (NoDup_fmap_elem_inj asv_pk); [exact Hpk|done..|congruence]).
      apply Hv. apply Hkeep in Hk. by apply elem_of_list_to_set in Hk.
    + apply elem_of_new_rows in Hr0 as (_ & _ & _ & Hlo & _).
      apply Hseq in Hr. lia.
  - intros r' (r0 & -> & Hr0)%list_elem_of_fmap.
    destruct (update_sort_order_fields objs r0) as (-> & _ & ->).
    apply elem_of_app in Hr0 as [[_ Hr0]%list_elem_of_filter|Hr0].
    + left. by exists r0.
    + right. apply elem_of_new_rows in Hr0 as (_ & _ & _ & Hlo & _). done.
Qed.

End AssociatorProperties.

(** ** The catalogue scenario *)

Lemma wf_empty_tables : wf_tables empty_tables.
Proof. constructor; cbn; try apply NoDup_nil_2; by intros ? ?%elem_of_nil. Qed.

Lemma wf_linked_tables link_id owner : wf_tables (linked_tables link_id owner).
Proof.
  constructor; cbn; try apply NoDup_nil_2; try apply NoDup_singleton;
    by intros ? ?%elem_of_nil.
Qed.

Lemma wf_catalogue : wf_store catalogue.
Proof. intros []; cbn; auto using wf_empty_tables, wf_linked_tables. Qed.

Lemma ascending_perm (ids : gset Z) : ascending ids ≡ₚ elements ids.
Proof. apply merge_sort_Permutation. Qed.

(** The scenario of the specification: green first, then red. *)
Example catalogue_green_then_red :
  associate_attribute_values_to_instance (λ rows, rows) ascending shirt color
    [green; red] None catalogue = (catalogue_green_red, Return shirt_color).
Proof. by vm_compute. Qed.

(** A repeated value is associated once, at its first position. *)
Example catalogue_repeated_value :
  assigned_rows
    (associate_attribute_values_to_instance (λ rows, rows) ascending shirt
       color [red; green; red] None catalogue).1 shirt_color
  = [ {| asv_pk := 1; asv_assignment_id := 1; asv_value_id := 1;
         sort_order := Some 0%nat |};
      {| asv_pk := 2; asv_assignment_id := 1; asv_value_id := 3;
         sort_order := Some 1%nat |} ].
Proof. by vm_compute. Qed.

(** A category is resolved through the links of the site settings. *)
Example catalogue_category :
  (associate_attribute_values_to_instance (λ rows, rows) ascending
     (ICategory 9) color [blue] (Some settings) catalogue).2
  = Return {| asg_model := Category;
              asg_row := {| asg_pk := 1; asg_instance_id := 9;
                            asg_assignment_id := 102 |} |}.
Proof. by vm_compute. Qed.

(** A page type without the link: [DoesNotExist]. *)
Example catalogue_page_unlinked :
  associate_attribute_values_to_instance (λ rows, rows) ascending
    (IPage 3 99) color
    [blue] None catalogue = (catalogue, Raise LinkNotFoundError).
Proof. by vm_compute. Qed.

Lemma catalogue_owned (values : list AttributeValue) :
  Forall (λ v, av_pk v ∈ [1; 2; 3]) values
  → ∀ v, v ∈ values → av_pk v ∈ attribute_actual_value_ids catalogue color.
Proof.
  intros Hall v Hv. rewrite Forall_forall in Hall. apply Hall in Hv.
  unfold attribute_actual_value_ids. by apply elem_of_list_to_set.
Qed.

(** *** The shop *)

Lemma wf_shop : wf_store shop.
Proof.
  intros []; cbn; auto using wf_empty_tables, wf_linked_tables;
    (constructor; cbn; try (by apply (bool_decide_unpack _));
     intros r Hr;
     repeat (apply elem_of_cons in Hr as [-> | Hr]; [done|]);
     by apply elem_of_nil in Hr).
Qed.

(** The shirt turns blue: its red row goes, a blue row comes; the rows of
    the hat and of the page stay. *)
Example shop_shirt_turns_blue :
  associate_attribute_values_to_instance (λ rows, rows) ascending shirt color
    [blue] None shop = (shop_shirt_blue, Return shirt_color).
Proof. by vm_compute. Qed.

Example shop_hat_keeps_its_rows :
  rows_of 2 (value_assignments (tables shop Product)) = hat_rows
  ∧ rows_of 2 (value_assignments (tables shop_shirt_blue Product)) = hat_rows.
Proof. by vm_compute. Qed.

(** Without values the shirt loses its red row, and nothing else changes. *)
Example shop_shirt_turns_bare :
  assigned_value_ids shop shirt_color = {[ 1 ]}
  ∧ associate_attribute_values_to_instance (λ rows, rows) ascending shirt
      color [] None shop = (shop_shirt_bare, Return shirt_color).
Proof. split; [by apply (bool_decide_unpack _)|by vm_compute]. Qed.

(** *** C1 on the catalogue *)


(** *** C2 on the catalogue: green gets 0 and red gets 1 *)

Lemma associate_sort_order_dense_witness :
  wf_store catalogue
  ∧ NoDup (av_pk <$> [green; red])
  ∧ associate_attribute_values_to_instance (λ rows, rows) ascending shirt color
      [green; red] None catalogue = (catalogue_green_red, Return shirt_color)
  ∧ (∀ r, r ∈ assigned_rows catalogue_green_red shirt_color
          → sort_order r = index (asv_value_id r) (av_pk <$> [green; red]))
  ∧ sort_order <$> assigned_rows catalogue_green_red shirt_color
    ≡ₚ Some <$> seq 0 (length [green; red]).
Proof.
  assert (h1 : wf_store catalogue) by exact wf_catalogue.
  assert (h2 : NoDup (av_pk <$> [green; red]))
    by (by apply (bool_decide_unpack _)).
  assert (h3 : associate_attribute_values_to_instance (λ rows, rows) ascending
                 shirt color [green; red] None catalogue
               = (catalogue_green_red, Return shirt_color))
    by exact catalogue_green_then_red.
  exact (conj h1 (conj h2 (conj h3
    (associate_sort_order_dense (λ rows, rows) (λ rows, reflexivity rows)
       ascending ascending_perm
       shirt color [green; red] None catalogue catalogue_green_red
       shirt_color h1 h2 h3)))).
Defined.

(** *** C3 on the catalogue: Large is not a colour *)

Lemma associate_rejects_foreign_values_witness :
  large ∈ [green; large]
  ∧ (av_pk large ∉ attribute_actual_value_ids catalogue color)
  ∧ associate_attribute_values_to_instance (λ rows, rows) ascending shirt color
      [green; large] None catalogue = (catalogue, Raise ValueOwnershipError)
  ∧ ∀ value_ids : gset Z,
      validate_attribute_owns_values color value_ids catalogue
      = (catalogue,
         if decide (value_ids ∖ attribute_actual_value_ids catalogue color
                    = ∅)
         then Return tt else Raise ValueOwnershipError).
Proof.
  assert (h1 : large ∈ [green; large]) by (by apply (bool_decide_unpack _)).
  assert (h2 : av_pk large ∉ attribute_actual_value_ids catalogue color)
    by (by apply (bool_decide_unpack _)).
  exact (conj h1 (conj h2
    (associate_rejects_foreign_values (λ rows, rows) ascending shirt color
       [green; large] None catalogue large h1 h2))).
Defined.

(** *** C4 on the catalogue *)

Lemma associate_idempotent_witness :
  wf_store catalogue
  ∧ associate_attribute_values_to_instance (λ rows, rows) ascending shirt color
      [green; red] None catalogue = (catalogue_green_red, Return shirt_color)
  ∧ associate_attribute_values_to_instance (λ rows, rows) ascending shirt color
      [green; red] None catalogue_green_red
    = (catalogue_green_red, Return shirt_color)
  ∧ (∀ m, NoDup ((λ a, (asg_instance_id a, asg_assignment_id a))
                   <$> assignments (tables catalogue_green_red m)))
  ∧ ∀ a, Return shirt_color = Return a
         → asg_instance_id (asg_row a) = instance_pk shirt
           ∧ assignment_rows (tables catalogue_green_red (asg_model a))
               (instance_pk shirt) (asg_assignment_id (asg_row a))
             = [asg_row a].
Proof.
  assert (h1 : wf_store catalogue) by exact wf_catalogue.
  assert (h2 : associate_attribute_values_to_instance (λ rows, rows) ascending
                 shirt color [green; red] None catalogue
               = (catalogue_green_red, Return shirt_color))
    by exact catalogue_green_then_red.
  exact (conj h1 (conj h2
    (associate_idempotent (λ rows, rows) (λ rows, reflexivity rows)
       ascending ascending_perm shirt
       color [green; red] None catalogue catalogue_green_red
       (Return shirt_color) h1 h2))).
Defined.

(** *** C5 on the catalogue *)

(** Size is not linked to the shirt's product type, and Red is not a size:
    the call fails on the values before it looks for the link. *)
Lemma associate_unlinked_counterexample :
  link_collection shirt None
  = Some {| lm_model := Product; lm_owner_id := 7 |}
  ∧ link_rows catalogue {| lm_model := Product; lm_owner_id := 7 |}
              (attr_pk size) = []
  ∧ associate_attribute_values_to_instance (λ rows, rows) ascending
      shirt size [red] None catalogue = (catalogue, Raise ValueOwnershipError)
  ∧ associate_attribute_values_to_instance (λ rows, rows) ascending
      shirt size [red] None catalogue ≠ (catalogue, Raise LinkNotFoundError).
Proof. split_and!; by vm_compute. Qed.

Lemma associate_unlinked_attribute_witness :
  (∀ v, v ∈ [large] → av_pk v ∈ attribute_actual_value_ids catalogue size)
  ∧ link_collection shirt None
    = Some {| lm_model := Product; lm_owner_id := 7 |}
  ∧ link_rows catalogue {| lm_model := Product; lm_owner_id := 7 |}
              (attr_pk size) = []
  ∧ associate_attribute_values_to_instance (λ rows, rows) ascending
      shirt size [large] None catalogue = (catalogue, Raise LinkNotFoundError).
Proof.
  assert (h1 : ∀ v, v ∈ [large]
                    → av_pk v ∈ attribute_actual_value_ids catalogue size).
  { intros v ->%list_elem_of_singleton. by apply (bool_decide_unpack _). }
  assert (h2 : link_collection shirt None
               = Some {| lm_model := Product; lm_owner_id := 7 |})
    by reflexivity.
  assert (h3 : link_rows catalogue
                 {| lm_model := Product; lm_owner_id := 7 |} (attr_pk size)
               = []) by reflexivity.
  exact (conj h1 (conj h2 (conj h3
    (associate_unlinked_attribute (λ rows, rows) ascending shirt size
       [large] None catalogue _ h1 h2 h3)))).
Defined.

(** *** C6 on the catalogue: sorting green and red by a list without red *)

Lemma sort_rejects_unlisted_value_witness :
  model_of shirt = Some (asg_model shirt_color)
  ∧ {| asv_pk := 1; asv_assignment_id := 1; asv_value_id := 1;
       sort_order := Some 1%nat |}
    ∈ assigned_rows catalogue_green_red shirt_color
  ∧ (1 ∉ av_pk <$> [green])
  ∧ sort_assigned_attribute_values (λ rows, rows) shirt shirt_color [green]
      catalogue_green_red
    = (catalogue_green_red, Raise ValueNotInAssignmentError).
Proof.
  assert (h1 : model_of shirt = Some (asg_model shirt_color)) by reflexivity.
  assert (h2 : {| asv_pk := 1; asv_assignment_id := 1; asv_value_id := 1;
                  sort_order := Some 1%nat |}
               ∈ assigned_rows catalogue_green_red shirt_color)
    by (by apply (bool_decide_unpack _)).
  assert (h3 : 1 ∉ av_pk <$> [green]) by (by apply (bool_decide_unpack _)).
  exact (conj h1 (conj h2 (conj h3
    (sort_rejects_unlisted_value (λ rows, rows) (λ rows, reflexivity rows)
       shirt shirt_color [green] catalogue_green_red _ h1 h2 h3)))).
Defined.

(** *** C7 on the catalogue *)

(** An order is no catalogue entity, and Large is not a colour: the call
    fails on the values before it looks at the class. *)
Lemma associate_unsupported_counterexample :
  associate_attribute_values_to_instance (λ rows, rows) ascending
    (IOther "Order" 1)
    color [large] None catalogue = (catalogue, Raise ValueOwnershipError)
  ∧ associate_attribute_values_to_instance (λ rows, rows) ascending
      (IOther "Order" 1) color [large] None catalogue
    ≠ (catalogue, Raise (UnsupportedEntityError "Order")).
Proof. split; by vm_compute. Qed.

Lemma associate_unsupported_instance_witness :
  (∀ v, v ∈ [red] → av_pk v ∈ attribute_actual_value_ids catalogue color)
  ∧ associate_attribute_values_to_instance (λ rows, rows) ascending
      (IOther "Order" 1) color [red] None catalogue
    = (catalogue, Raise (UnsupportedEntityError "Order")).
Proof.
  assert (h1 : ∀ v, v ∈ [red]
                    → av_pk v ∈ attribute_actual_value_ids catalogue color)
    by (apply catalogue_owned; by apply (bool_decide_unpack _)).
  exact (conj h1
    (associate_unsupported_instance (λ rows, rows) ascending "Order" 1 color
       [red] None catalogue h1)).
Defined.

(** *** C8 in the shop: the shirt turns blue, the hat and the page keep
    their rows *)

Lemma associate_frame_effect_witness :
  wf_store shop
  ∧ associate_attribute_values_to_instance (λ rows, rows) ascending shirt color
      [blue] None shop = (shop_shirt_blue, Return shirt_color)
  ∧ attribute_values shop_shirt_blue = attribute_values shop
  ∧ (∀ m, links (tables shop_shirt_blue m) = links (tables shop m))
  ∧ (∀ m, m ≠ asg_model shirt_color
          → tables shop_shirt_blue m = tables shop m)
  ∧ (∀ row, row ≠ asg_row shirt_color
            → row ∈ assignments
                      (tables shop_shirt_blue (asg_model shirt_color))
              ↔ row ∈ assignments (tables shop (asg_model shirt_color)))
  ∧ asg_instance_id (asg_row shirt_color) = instance_pk shirt
  ∧ (∀ pk, pk ≠ asg_pk (asg_row shirt_color)
           → rows_of pk (value_assignments
                           (tables shop_shirt_blue (asg_model shirt_color)))
             = rows_of pk (value_assignments
                             (tables shop (asg_model shirt_color))))
  ∧ model_of shirt = Some (asg_model shirt_color)
  ∧ asg_row shirt_color
    ∈ assignments (tables shop_shirt_blue (asg_model shirt_color))
  ∧ (∃ link, link ∈ links (tables shop (asg_model shirt_color))
             ∧ link_attribute_id link = attr_pk color
             ∧ asg_assignment_id (asg_row shirt_color) = link_pk link)
  ∧ assignment_rows (tables shop_shirt_blue (asg_model shirt_color))
      (instance_pk shirt) (asg_assignment_id (asg_row shirt_color))
    = [asg_row shirt_color]
  ∧ (∀ row, row ∈ assignments
                    (tables shop_shirt_blue (asg_model shirt_color))
            → row ≠ asg_row shirt_color
            → rows_of (asg_pk row)
                (value_assignments
                   (tables shop_shirt_blue (asg_model shirt_color)))
              = rows_of (asg_pk row)
                  (value_assignments
                     (tables shop (asg_model shirt_color)))).
Proof.
  assert (h1 : wf_store shop) by exact wf_shop.
  assert (h2 : associate_attribute_values_to_instance (λ rows, rows) ascending
                 shirt color [blue] None shop
               = (shop_shirt_blue, Return shirt_color))
    by exact shop_shirt_turns_blue.
  exact (conj h1 (conj h2
    (associate_frame_effect (λ rows, rows) (λ rows, reflexivity rows)
       ascending ascending_perm shirt
       color [blue] None shop shop_shirt_blue shirt_color h1 h2))).
Defined.

(** *** C9 on the catalogue *)

(** A category without site settings, and Large is not a colour: the call
    fails on the values before it reaches for the settings. *)
Lemma associate_without_site_settings_counterexample :
  associate_attribute_values_to_instance (λ rows, rows) ascending
    (ICategory 9) color
    [large] None catalogue = (catalogue, Raise ValueOwnershipError)
  ∧ associate_attribute_values_to_instance (λ rows, rows) ascending
      (ICategory 9)
      color [large] None catalogue ≠ (catalogue, Raise AttributeError).
Proof. split; by vm_compute. Qed.

Lemma associate_without_site_settings_witness :
  (∀ v, v ∈ [red] → av_pk v ∈ attribute_actual_value_ids catalogue color)
  ∧ (model_of (ICategory 9) = Some Category
     ∨ model_of (ICategory 9) = Some Collection)
  ∧ associate_attribute_values_to_instance (λ rows, rows) ascending
      (ICategory 9)
      color [red] None catalogue = (catalogue, Raise AttributeError)
  ∧ AttributeError ≠ LinkNotFoundError
  ∧ (∀ name, AttributeError ≠ UnsupportedEntityError name)
  ∧ AttributeError ≠ ValueOwnershipError
  ∧ AttributeError ≠ ValueNotInAssignmentError.
Proof.
  assert (h1 : ∀ v, v ∈ [red]
                    → av_pk v ∈ attribute_actual_value_ids catalogue color)
    by (apply catalogue_owned; by apply (bool_decide_unpack _)).
  assert (h2 : model_of (ICategory 9) = Some Category
               ∨ model_of (ICategory 9) = Some Collection)
    by (left; reflexivity).
  exact (conj h1 (conj h2
    (associate_without_site_settings (λ rows, rows) ascending (ICategory 9)
       color [red] catalogue h1 h2))).
Defined.

(** *** C10 in the shop: the shirt loses its red row *)


(** ** The further properties on the catalogue *)

Lemma wf_catalogue_green_red : wf_store catalogue_green_red.
Proof.
  pose proof (associate_wf (λ rows, rows) (λ rows, reflexivity rows)
                ascending ascending_perm shirt color [green; red] None
                catalogue wf_catalogue) as H.
  by rewrite catalogue_green_then_red in H.
Qed.

Lemma associate_failure_writes_nothing_witness :
  exact_class shirt
  ∧ associate_attribute_values_to_instance (λ rows, rows) ascending shirt size
      [red] None shop = (shop, Raise ValueOwnershipError)
  ∧ shop = shop.
Proof.
  assert (h1 : exact_class shirt) by reflexivity.
  assert (h2 : associate_attribute_values_to_instance (λ rows, rows)
                 ascending shirt size [red] None shop
               = (shop, Raise ValueOwnershipError)) by (by vm_compute).
  exact (conj h1 (conj h2
    (associate_failure_writes_nothing (λ rows, rows)
       (λ rows, reflexivity rows) ascending ascending_perm shirt size [red]
       None shop shop ValueOwnershipError h1 h2))).
Defined.

Lemma associate_failure_kinds_witness :
  exact_class (IPage 3 99)
  ∧ associate_attribute_values_to_instance (λ rows, rows) ascending
      (IPage 3 99) color [blue] None catalogue
    = (catalogue, Raise DoesNotExist)
  ∧ (DoesNotExist = ValueOwnershipError ∨ DoesNotExist = DoesNotExist
     ∨ DoesNotExist = MultipleObjectsReturned ∨ DoesNotExist = AttributeError
     ∨ ∃ name, DoesNotExist = UnsupportedEntityError name)
  ∧ DoesNotExist ≠ ValueError ∧ ∀ key, DoesNotExist ≠ KeyError key.
Proof.
  assert (h1 : exact_class (IPage 3 99)) by reflexivity.
  assert (h2 : associate_attribute_values_to_instance (λ rows, rows)
                 ascending (IPage 3 99) color [blue] None catalogue
               = (catalogue, Raise DoesNotExist)) by (by vm_compute).
  exact (conj h1 (conj h2
    (associate_failure_kinds (λ rows, rows) (λ rows, reflexivity rows)
       ascending ascending_perm (IPage 3 99) color [blue] None catalogue
       catalogue DoesNotExist h1 h2))).
Defined.

Lemma associate_lookups_unambiguous_witness :
  wf_store catalogue
  ∧ associate_attribute_values_to_instance (λ rows, rows) ascending shirt
      color [green; red] None catalogue
    ≠ (catalogue, Raise MultipleObjectsReturned).
Proof.
  assert (h1 : wf_store catalogue) by exact wf_catalogue.
  exact (conj h1
    (associate_lookups_unambiguous (λ rows, rows) (λ rows, reflexivity rows)
       ascending ascending_perm shirt color [green; red] None catalogue
       catalogue h1)).
Defined.

Lemma associate_keeps_schema_constraints_witness :
  wf_store catalogue
  ∧ wf_store (associate_attribute_values_to_instance (λ rows, rows) ascending
                shirt color [green; red] None catalogue).1.
Proof.
  assert (h1 : wf_store catalogue) by exact wf_catalogue.
  exact (conj h1
    (associate_keeps_schema_constraints (λ rows, rows)
       (λ rows, reflexivity rows) ascending ascending_perm shirt color
       [green; red] None catalogue h1)).
Defined.

Lemma category_or_collection_helper_other_class_witness :
  class_name shirt ≠ "Category"
  ∧ class_name shirt ≠ "Collection"
  ∧ _get_associate_category_or_collection_attribute shirt (attr_pk color)
      (Some settings) catalogue
    = (catalogue, Raise (KeyError (class_name shirt))).
Proof.
  assert (h1 : class_name shirt ≠ "Category") by done.
  assert (h2 : class_name shirt ≠ "Collection") by done.
  exact (conj h1 (conj h2
    (category_or_collection_helper_other_class shirt (attr_pk color)
       (Some settings) catalogue h1 h2))).
Defined.

Lemma sort_unknown_class_witness :
  (class_name (IOther "Order" 1)
     ∉ ["Product"; "ProductVariant"; "Page"; "Category"; "Collection"])
  ∧ sort_assigned_attribute_values (λ rows, rows) (IOther "Order" 1)
      shirt_color [green; red] catalogue_green_red
    = (catalogue_green_red, Raise (KeyError (class_name (IOther "Order" 1)))).
Proof.
  assert (h1 : class_name (IOther "Order" 1)
               ∉ ["Product"; "ProductVariant"; "Page"; "Category";
                  "Collection"]) by (by apply (bool_decide_unpack _)).
  exact (conj h1
    (sort_unknown_class (λ rows, rows) (IOther "Order" 1) shirt_color
       [green; red] catalogue_green_red h1)).
Defined.

Lemma associate_to_instance_effect_witness :
  _associate_attribute_to_instance shirt (attr_pk color) None catalogue
  = (catalogue_assigned, Return shirt_color)
  ∧ model_of shirt = Some (asg_model shirt_color)
  ∧ asg_instance_id (asg_row shirt_color) = instance_pk shirt
  ∧ (∃ link, link ∈ links (tables catalogue (asg_model shirt_color))
             ∧ link_attribute_id link = attr_pk color
             ∧ asg_assignment_id (asg_row shirt_color) = link_pk link)
  ∧ attribute_values catalogue_assigned = attribute_values catalogue
  ∧ (∀ m, links (tables catalogue_assigned m) = links (tables catalogue m))
  ∧ (∀ m, value_assignments (tables catalogue_assigned m)
          = value_assignments (tables catalogue m))
  ∧ (∀ m, m ≠ asg_model shirt_color
          → tables catalogue_assigned m = tables catalogue m)
  ∧ asg_row shirt_color
    ∈ assignments (tables catalogue_assigned (asg_model shirt_color))
  ∧ (asg_row shirt_color
       ∈ assignments (tables catalogue (asg_model shirt_color))
     → catalogue_assigned = catalogue)
  ∧ (asg_row shirt_color
       ∉ assignments (tables catalogue (asg_model shirt_color))
     → assignments (tables catalogue_assigned (asg_model shirt_color))
       = assignments (tables catalogue (asg_model shirt_color))
         ++ [asg_row shirt_color]).
Proof.
  assert (h1 : _associate_attribute_to_instance shirt (attr_pk color) None
                 catalogue
               = (catalogue_assigned, Return shirt_color))
    by (by vm_compute).
  exact (conj h1
    (associate_to_instance_effect shirt (attr_pk color) None catalogue
       catalogue_assigned shirt_color h1)).
Defined.

Lemma sort_values_ranks_witness :
  model_of shirt = Some (asg_model shirt_color)
  ∧ NoDup (asv_pk <$> value_assignments
                        (tables catalogue_green_red (asg_model shirt_color)))
  ∧ (∀ r, r ∈ assigned_rows catalogue_green_red shirt_color
          → asv_value_id r ∈ av_pk <$> [red; blue; green; red])
  ∧ ∃ st',
      sort_assigned_attribute_values (λ rows, rows) shirt shirt_color
        [red; blue; green; red] catalogue_green_red = (st', Return tt)
      ∧ asv_value_id <$> assigned_rows st' shirt_color
        = asv_value_id <$> assigned_rows catalogue_green_red shirt_color
      ∧ sort_order <$> assigned_rows st' shirt_color
        ≡ₚ Some <$> seq 0 (length (assigned_rows catalogue_green_red
                                                  shirt_color))
      ∧ ∀ r1 r2 k1 k2 i1 i2,
          r1 ∈ assigned_rows st' shirt_color
          → r2 ∈ assigned_rows st' shirt_color
          → index (asv_value_id r1) (av_pk <$> [red; blue; green; red])
            = Some k1
          → index (asv_value_id r2) (av_pk <$> [red; blue; green; red])
            = Some k2
          → sort_order r1 = Some i1 → sort_order r2 = Some i2
          → (k1 < k2)%nat → (i1 < i2)%nat.
Proof.
  assert (h1 : model_of shirt = Some (asg_model shirt_color)) by reflexivity.
  assert (h2 : NoDup (asv_pk <$> value_assignments
                        (tables catalogue_green_red (asg_model shirt_color))))
    by (by apply (bool_decide_unpack _)).
  assert (h3 : ∀ r, r ∈ assigned_rows catalogue_green_red shirt_color
                    → asv_value_id r ∈ av_pk <$> [red; blue; green; red]).
  { apply Forall_forall. by apply (bool_decide_unpack _). }
  exact (conj h1 (conj h2 (conj h3
    (sort_values_ranks (λ rows, rows) (λ rows, reflexivity rows) shirt
       shirt_color [red; blue; green; red] catalogue_green_red h1 h2 h3)))).
Defined.

(** The shirt's colours sorted again, red first. *)
Lemma sort_values_frame_witness :
  model_of shirt = Some (asg_model shirt_color)
  ∧ NoDup (asv_pk <$> value_assignments
                        (tables catalogue_green_red (asg_model shirt_color)))
  ∧ sort_assigned_attribute_values (λ rows, rows) shirt shirt_color
      [red; green] catalogue_green_red = (catalogue_red_green, Return tt)
  ∧ attribute_values catalogue_red_green
    = attribute_values catalogue_green_red
  ∧ (∀ m, links (tables catalogue_red_green m)
          = links (tables catalogue_green_red m))
  ∧ (∀ m, assignments (tables catalogue_red_green m)
          = assignments (tables catalogue_green_red m))
  ∧ (∀ m, next_assignment_pk (tables catalogue_red_green m)
          = next_assignment_pk (tables catalogue_green_red m))
  ∧ (∀ m, next_value_assignment_pk (tables catalogue_red_green m)
          = next_value_assignment_pk (tables catalogue_green_red m))
  ∧ (∀ m, m ≠ asg_model shirt_color
          → tables catalogue_red_green m = tables catalogue_green_red m)
  ∧ (λ r, with_sort_order r None)
      <$> value_assignments
            (tables catalogue_red_green (asg_model shirt_color))
    = (λ r, with_sort_order r None)
        <$> value_assignments
              (tables catalogue_green_red (asg_model shirt_color))
  ∧ (∀ pk, pk ≠ asg_pk (asg_row shirt_color)
           → rows_of pk (value_assignments
                           (tables catalogue_red_green
                                   (asg_model shirt_color)))
             = rows_of pk (value_assignments
                             (tables catalogue_green_red
                                     (asg_model shirt_color)))).
Proof.
  assert (h1 : model_of shirt = Some (asg_model shirt_color)) by reflexivity.
  assert (h2 : NoDup (asv_pk <$> value_assignments
                        (tables catalogue_green_red (asg_model shirt_color))))
    by (by apply (bool_decide_unpack _)).
  assert (h3 : sort_assigned_attribute_values (λ rows, rows) shirt
                 shirt_color [red; green] catalogue_green_red
               = (catalogue_red_green, Return tt)) by (by vm_compute).
  exact (conj h1 (conj h2 (conj h3
    (sort_values_frame (λ rows, rows) (λ rows, reflexivity rows) shirt
       shirt_color [red; green] catalogue_green_red catalogue_red_green
       (Return tt) h1 h2 h3)))).
Defined.

(** Red, green and red again: two rows, red at 0 and green at 1. *)
Lemma associate_sort_order_ranks_witness :
  wf_store catalogue
  ∧ associate_attribute_values_to_instance (λ rows, rows) ascending shirt
      color [red; green; red] None catalogue
    = (catalogue_red_green, Return shirt_color)
  ∧ sort_order <$> assigned_rows catalogue_red_green shirt_color
    ≡ₚ Some <$> seq 0 (base.size (list_to_set (av_pk <$> [red; green; red])
                                  : gset Z))
  ∧ ∀ r1 r2 k1 k2 i1 i2,
      r1 ∈ assigned_rows catalogue_red_green shirt_color
      → r2 ∈ assigned_rows catalogue_red_green shirt_color
      → index (asv_value_id r1) (av_pk <$> [red; green; red]) = Some k1
      → index (asv_value_id r2) (av_pk <$> [red; green; red]) = Some k2
      → sort_order r1 = Some i1 → sort_order r2 = Some i2
      → (k1 < k2)%nat → (i1 < i2)%nat.
Proof.
  assert (h1 : wf_store catalogue) by exact wf_catalogue.
  assert (h2 : associate_attribute_values_to_instance (λ rows, rows)
                 ascending shirt color [red; green; red] None catalogue
               = (catalogue_red_green, Return shirt_color))
    by (by vm_compute).
  exact (conj h1 (conj h2
    (associate_sort_order_ranks (λ rows, rows) (λ rows, reflexivity rows)
       ascending ascending_perm shirt color [red; green; red] None catalogue
       catalogue_red_green shirt_color h1 h2))).
Defined.

(** Green and red are associated; blue and green are requested: green
    keeps row 2, red's row 1 goes, blue gets row 3. *)
Lemma associate_keeps_rows_of_kept_values_witness :
  wf_store catalogue_green_red
  ∧ associate_attribute_values_to_instance (λ rows, rows) ascending shirt
      color [blue; green] None catalogue_green_red
    = (catalogue_blue_green, Return shirt_color)
  ∧ (∀ r, r ∈ assigned_rows catalogue_green_red shirt_color
          → asv_value_id r ∈ av_pk <$> [blue; green]
          → ∃ r', r' ∈ assigned_rows catalogue_blue_green shirt_color
                  ∧ asv_pk r' = asv_pk r
                  ∧ asv_value_id r' = asv_value_id r)
  ∧ (∀ r, r ∈ assigned_rows catalogue_green_red shirt_color
          → asv_value_id r ∉ av_pk <$> [blue; green]
          → asv_pk r
            ∉ asv_pk <$> value_assignments
                           (tables catalogue_blue_green
                                   (asg_model shirt_color)))
  ∧ (∀ r', r' ∈ assigned_rows catalogue_blue_green shirt_color
           → (∃ r, r ∈ assigned_rows catalogue_green_red shirt_color
                   ∧ asv_pk r = asv_pk r'
                   ∧ asv_value_id r = asv_value_id r')
             ∨ (next_value_assignment_pk
                  (tables catalogue_green_red (asg_model shirt_color))
                ≤ asv_pk r')%Z).
Proof.
  assert (h1 : wf_store catalogue_green_red) by exact wf_catalogue_green_red.
  assert (h2 : associate_attribute_values_to_instance (λ rows, rows)
                 ascending shirt color [blue; green] None catalogue_green_red
               = (catalogue_blue_green, Return shirt_color))
    by (by vm_compute).
  exact (conj h1 (conj h2
    (associate_keeps_rows_of_kept_values (λ rows, rows)
       (λ rows, reflexivity rows) ascending ascending_perm shirt color
       [blue; green] None catalogue_green_red catalogue_blue_green
       shirt_color h1 h2))).
Defined.
